(** * The immunizations form of the patient chart widgets

    A shallow embedding of
    [src/widgets/immunizations/immunizations-form.component.tsx]:
    the form state, its merge update, the mount effect, the dose (sequence)
    selector, the button conditions, the submit pipeline and the close flow,
    followed by the properties the specification states about them. *)

From Stdlib Require Import ZArith NArith List String Ascii Bool Lia.
Import ListNotations.
Local Open Scope Z_scope.

(** ** Host language values and builtins *)

Module JS.

(** A value that may be [null] or [undefined] at run time. *)
Inductive maybe (A : Type) : Type :=
| Null
| Undefined
| Val (a : A).
Arguments Null {A}.
Arguments Undefined {A}.
Arguments Val {A} a.

(** [!!x] for a nullable string: [null], [undefined] and the empty string
    are falsy. *)
Definition truthy (x : maybe string) : bool :=
  match x with
  | Val s => negb (String.eqb s EmptyString)
  | _ => false
  end.

(** [!!x] for a nullable object or array: every object is truthy. *)
Definition truthyObj {A : Type} (x : maybe A) : bool :=
  match x with
  | Val _ => true
  | _ => false
  end.

(** [x?.f]: [undefined] when [x] is [null] or [undefined]. *)
Definition optChain {A B : Type} (x : maybe A) (f : A -> maybe B) : maybe B :=
  match x with
  | Val a => f a
  | _ => Undefined
  end.

(** What a template literal prints for a nullable string. *)
Definition toStr (x : maybe string) : string :=
  match x with
  | Null => "null"
  | Undefined => "undefined"
  | Val s => s
  end.

(** Numbers (doubles): [NaN], the infinities, the integers ([-0] and [+0]
    are both [Int 0], as [===] does not tell them apart) and the fractions
    [m / 2^e] with [m] odd. *)
Inductive num : Type :=
| NaN
| Inf (negative : bool)
| Int (z : Z)
| Frac (m : Z) (e : positive).

(** [a === b] on numbers. *)
Definition strictEq (a b : num) : bool :=
  match a, b with
  | Int x, Int y => Z.eqb x y
  | Inf s, Inf r => Bool.eqb s r
  | Frac m e, Frac n f => Z.eqb m n && Pos.eqb e f
  | _, _ => false
  end.

(** The double nearest to an integer (round to nearest, ties to even, and
    to an infinity from 2^1024 - 2^970 on); integers below 2^53 in magnitude
    are exact. *)
Definition toDouble (z : Z) : num :=
  let a := Z.abs z in
  if a <? 2 ^ 53 then Int z
  else
    let e := Z.log2 a - 52 in
    let q := Z.shiftr a e in
    let r := a - Z.shiftl q e in
    let half := Z.shiftl 1 (e - 1) in
    let q' := if (half <? r) || ((half =? r) && Z.odd q) then q + 1 else q in
    let m := Z.shiftl q' e in
    if 2 ^ 1024 <=? m then Inf (z <? 0) else Int (Z.sgn z * m).

(** A string value is its sequence of UTF-16 code units. *)
Definition jsstring : Type := list N.

Definition str (s : string) : jsstring :=
  map N_of_ascii (list_ascii_of_string s).

Local Open Scope N_scope.

Definition between (lo hi c : N) : bool := (lo <=? c) && (c <=? hi).

(** WhiteSpace and LineTerminator code units, as [String.prototype.trim],
    [Number] and [parseInt] skip them. *)
Definition isWhiteSpace (c : N) : bool :=
  between 9 13 c || (c =? 32) || (c =? 160) || (c =? 5760)
  || between 8192 8202 c || (c =? 8232) || (c =? 8233) || (c =? 8239)
  || (c =? 8287) || (c =? 12288) || (c =? 65279).

Definition isDigit (c : N) : bool := between 48 57 c.
Definition isOctalDigit (c : N) : bool := between 48 55 c.
Definition isBinaryDigit (c : N) : bool := between 48 49 c.
Definition isHexDigit (c : N) : bool :=
  isDigit c || between 65 70 c || between 97 102 c.

Definition digitValue (c : N) : Z :=
  if isDigit c then Z.of_N (c - 48)
  else if between 65 70 c then Z.of_N (c - 55)
  else Z.of_N (c - 87).

Fixpoint dropWhile (p : N -> bool) (l : jsstring) : jsstring :=
  match l with
  | c :: l' => if p c then dropWhile p l' else l
  | [] => []
  end.

Fixpoint takeWhile (p : N -> bool) (l : jsstring) : jsstring :=
  match l with
  | c :: l' => if p c then c :: takeWhile p l' else []
  | [] => []
  end.

Definition trimStart (l : jsstring) : jsstring := dropWhile isWhiteSpace l.
Definition trim (l : jsstring) : jsstring :=
  rev (trimStart (rev (trimStart l))).

Definition nonEmpty (l : jsstring) : bool :=
  match l with [] => false | _ => true end.

Definition allDigits (p : N -> bool) (l : jsstring) : bool :=
  nonEmpty l && forallb p l.

Fixpoint eqUnits (a b : jsstring) : bool :=
  match a, b with
  | [], [] => true
  | x :: a', y :: b' => (x =? y) && eqUnits a' b'
  | _, _ => false
  end.

(** ExponentPart, optional: nothing, or [e]/[E], an optional sign and
    digits. *)
Definition isExponentOpt (l : jsstring) : bool :=
  match l with
  | [] => true
  | c :: l' =>
      if (c =? 101) || (c =? 69) then
        match l' with
        | s :: ds =>
            if (s =? 43) || (s =? 45) then allDigits isDigit ds
            else allDigits isDigit l'
        | [] => false
        end
      else false
  end.

(** StrUnsignedDecimalLiteral. *)
Definition isUnsignedDecimal (l : jsstring) : bool :=
  if eqUnits l (str "Infinity") then true
  else
    let ip := takeWhile isDigit l in
    match dropWhile isDigit l with
    | c :: rest =>
        if c =? 46 then
          let fp := takeWhile isDigit rest in
          (nonEmpty ip || nonEmpty fp)
          && isExponentOpt (dropWhile isDigit rest)
        else nonEmpty ip && isExponentOpt (c :: rest)
    | [] => nonEmpty ip
    end.

(** NonDecimalIntegerLiteral: [0x], [0o] or [0b] and digits of that radix. *)
Definition isNonDecimalInteger (l : jsstring) : bool :=
  match l with
  | z :: p :: ds =>
      (z =? 48)
      && (((p =? 120) || (p =? 88)) && allDigits isHexDigit ds
          || ((p =? 111) || (p =? 79)) && allDigits isOctalDigit ds
          || ((p =? 98) || (p =? 66)) && allDigits isBinaryDigit ds)
  | _ => false
  end.

(** Whether [Number(s)] is a number: the (trimmed) string is empty or a
    StrNumericLiteral. *)
Definition isNumericString (s : jsstring) : bool :=
  match trim s with
  | [] => true
  | c :: rest =>
      isNonDecimalInteger (c :: rest)
      || (if (c =? 43) || (c =? 45) then isUnsignedDecimal rest
          else isUnsignedDecimal (c :: rest))
  end.

(** [isNaN(s)] for a string argument: [Number(s)] is [NaN]. *)
Definition isNaN (s : jsstring) : bool := negb (isNumericString s).

Definition mathInt (radix : Z) (ds : jsstring) : Z :=
  fold_left (fun acc c => (acc * radix + digitValue c)%Z) ds 0%Z.

(** [parseInt(s)] with no radix argument: leading white space, a sign, a
    [0x] prefix, then the longest run of digits of the radix, read exactly. *)
Definition parseInt (s : jsstring) : num :=
  let s1 := trimStart s in
  let negative := match s1 with c :: _ => c =? 45 | [] => false end in
  let s2 := match s1 with
            | c :: r => if (c =? 43) || (c =? 45) then r else s1
            | [] => s1
            end in
  let hex := match s2 with
             | z :: x :: _ => (z =? 48) && ((x =? 120) || (x =? 88))
             | _ => false
             end in
  let s3 := if hex then skipn 2 s2 else s2 in
  let isRadixDigit := if hex then isHexDigit else isDigit in
  let radix := if hex then 16%Z else 10%Z in
  let ds := takeWhile isRadixDigit s3 in
  match ds with
  | [] => NaN
  | _ =>
      let m := mathInt radix ds in
      toDouble (if negative then (- m)%Z else m)
  end.

(** The decimal digits of [n], most significant first, in front of [acc]. *)
Fixpoint decimalDigits (fuel : nat) (n : N) (acc : jsstring) : jsstring :=
  match fuel with
  | O => acc
  | S fuel' =>
      let acc' := (48 + n mod 10) :: acc in
      if n / 10 =? 0 then acc' else decimalDigits fuel' (n / 10) acc'
  end.

(** [String(z)] for an integer [z] (below 10^21 in magnitude, where the
    text is the plain decimal numeral): what an [option] gets for
    [value={z}]. *)
Definition numberToString (z : Z) : jsstring :=
  let n := Z.to_N (Z.abs z) in
  let digits := decimalDigits (S (N.to_nat (N.log2 n))) n [] in
  if (z <? 0)%Z then 45 :: digits else digits.

End JS.

Import JS.

(** ** The data model *)

(** One dose of a vaccination schedule ([ImmunizationSequence] of
    [./immunization-domain]); the empty object [{}] has neither property. *)
Record ImmunizationSequence : Type := {
  sequenceLabel : maybe string;
  sequenceNumber : maybe num
}.

(** [{} as ImmunizationSequence]. *)
Definition defaultDose : ImmunizationSequence :=
  {| sequenceLabel := Undefined; sequenceNumber := Undefined |}.

(** The payload shape shared by the navigation parameters and the save call
    ([ImmunizationFormData] of [./immunization-domain]), with the properties
    the component reads and writes. A property an object literal leaves out
    reads as [Undefined]. *)
Module FormData.
Record t : Type := {
  patientUuid : maybe string;
  immunizationObsUuid : maybe string;
  vaccineName : maybe string;
  vaccineUuid : maybe string;
  manufacturer : maybe string;
  expirationDate : maybe string;
  vaccinationDate : maybe string;
  lotNumber : maybe string;
  sequences : maybe (list ImmunizationSequence);
  currentDose : maybe ImmunizationSequence
}.
End FormData.

Definition ImmunizationFormData : Type := FormData.t.

Record ImmunizationFormState : Type := {
  vaccineName : maybe string;
  vaccineUuid : maybe string;
  immunizationObsUuid : maybe string;
  vaccinationDate : maybe string;
  currentDose : ImmunizationSequence;
  sequences : list ImmunizationSequence;
  expirationDate : maybe string;
  lotNumber : maybe string;
  manufacturer : maybe string;
  formChanged : bool
}.

Definition initialState : ImmunizationFormState := {|
  vaccineName := Val ""%string;
  vaccineUuid := Val ""%string;
  immunizationObsUuid := Val ""%string;
  vaccinationDate := Null;
  sequences := [];
  currentDose := defaultDose;
  expirationDate := Null;
  lotNumber := Val ""%string;
  manufacturer := Val ""%string;
  formChanged := false
|}.

(** ** The form state holder *)

(** [keyof ImmunizationFormState]. *)
Inductive fieldName : Type :=
| VaccineName
| VaccineUuid
| ImmunizationObsUuid
| VaccinationDate
| CurrentDose
| Sequences
| ExpirationDate
| LotNumber
| Manufacturer
| FormChanged.

(** [ImmunizationFormState[T]]. *)
Definition fieldType (name : fieldName) : Type :=
  match name with
  | CurrentDose => ImmunizationSequence
  | Sequences => list ImmunizationSequence
  | FormChanged => bool
  | _ => maybe string
  end.

(** [state[name]]. *)
Definition getField (name : fieldName) (state : ImmunizationFormState)
  : fieldType name :=
  match name with
  | VaccineName => vaccineName state
  | VaccineUuid => vaccineUuid state
  | ImmunizationObsUuid => immunizationObsUuid state
  | VaccinationDate => vaccinationDate state
  | CurrentDose => currentDose state
  | Sequences => sequences state
  | ExpirationDate => expirationDate state
  | LotNumber => lotNumber state
  | Manufacturer => manufacturer state
  | FormChanged => formChanged state
  end.

(** The updater [state => ({ ...state, [name]: value })] that [updateSingle]
    hands to [setFormState]. *)
Definition updateSingle (name : fieldName)
  : fieldType name -> ImmunizationFormState -> ImmunizationFormState :=
  match name with
  | VaccineName => fun value state =>
      {| vaccineName := value; vaccineUuid := vaccineUuid state;
         immunizationObsUuid := immunizationObsUuid state;
         vaccinationDate := vaccinationDate state;
         currentDose := currentDose state; sequences := sequences state;
         expirationDate := expirationDate state; lotNumber := lotNumber state;
         manufacturer := manufacturer state; formChanged := formChanged state |}
  | VaccineUuid => fun value state =>
      {| vaccineName := vaccineName state; vaccineUuid := value;
         immunizationObsUuid := immunizationObsUuid state;
         vaccinationDate := vaccinationDate state;
         currentDose := currentDose state; sequences := sequences state;
         expirationDate := expirationDate state; lotNumber := lotNumber state;
         manufacturer := manufacturer state; formChanged := formChanged state |}
  | ImmunizationObsUuid => fun value state =>
      {| vaccineName := vaccineName state; vaccineUuid := vaccineUuid state;
         immunizationObsUuid := value;
         vaccinationDate := vaccinationDate state;
         currentDose := currentDose state; sequences := sequences state;
         expirationDate := expirationDate state; lotNumber := lotNumber state;
         manufacturer := manufacturer state; formChanged := formChanged state |}
  | VaccinationDate => fun value state =>
      {| vaccineName := vaccineName state; vaccineUuid := vaccineUuid state;
         immunizationObsUuid := immunizationObsUuid state;
         vaccinationDate := value;
         currentDose := currentDose state; sequences := sequences state;
         expirationDate := expirationDate state; lotNumber := lotNumber state;
         manufacturer := manufacturer state; formChanged := formChanged state |}
  | CurrentDose => fun value state =>
      {| vaccineName := vaccineName state; vaccineUuid := vaccineUuid state;
         immunizationObsUuid := immunizationObsUuid state;
         vaccinationDate := vaccinationDate state;
         currentDose := value; sequences := sequences state;
         expirationDate := expirationDate state; lotNumber := lotNumber state;
         manufacturer := manufacturer state; formChanged := formChanged state |}
  | Sequences => fun value state =>
      {| vaccineName := vaccineName state; vaccineUuid := vaccineUuid state;
         immunizationObsUuid := immunizationObsUuid state;
         vaccinationDate := vaccinationDate state;
         currentDose := currentDose state; sequences := value;
         expirationDate := expirationDate state; lotNumber := lotNumber state;
         manufacturer := manufacturer state; formChanged := formChanged state |}
  | ExpirationDate => fun value state =>
      {| vaccineName := vaccineName state; vaccineUuid := vaccineUuid state;
         immunizationObsUuid := immunizationObsUuid state;
         vaccinationDate := vaccinationDate state;
         currentDose := currentDose state; sequences := sequences state;
         expirationDate := value; lotNumber := lotNumber state;
         manufacturer := manufacturer state; formChanged := formChanged state |}
  | LotNumber => fun value state =>
      {| vaccineName := vaccineName state; vaccineUuid := vaccineUuid state;
         immunizationObsUuid := immunizationObsUuid state;
         vaccinationDate := vaccinationDate state;
         currentDose := currentDose state; sequences := sequences state;
         expirationDate := expirationDate state; lotNumber := value;
         manufacturer := manufacturer state; formChanged := formChanged state |}
  | Manufacturer => fun value state =>
      {| vaccineName := vaccineName state; vaccineUuid := vaccineUuid state;
         immunizationObsUuid := immunizationObsUuid state;
         vaccinationDate := vaccinationDate state;
         currentDose := currentDose state; sequences := sequences state;
         expirationDate := expirationDate state; lotNumber := lotNumber state;
         manufacturer := value; formChanged := formChanged state |}
  | FormChanged => fun value state =>
      {| vaccineName := vaccineName state; vaccineUuid := vaccineUuid state;
         immunizationObsUuid := immunizationObsUuid state;
         vaccinationDate := vaccinationDate state;
         currentDose := currentDose state; sequences := sequences state;
         expirationDate := expirationDate state; lotNumber := lotNumber state;
         manufacturer := manufacturer state; formChanged := value |}
  end.

(** ** Derived render values *)

Definition isViewEditMode (formState : ImmunizationFormState) : bool :=
  truthy (immunizationObsUuid formState).

Definition enableCreateButtons (formState : ImmunizationFormState) : bool :=
  negb (isViewEditMode formState) && truthy (vaccinationDate formState).

Definition enableEditButtons (formState : ImmunizationFormState) : bool :=
  isViewEditMode formState && formChanged formState.

(** The [disabled] attribute of the submit button. *)
Definition submitDisabled (formState : ImmunizationFormState) : bool :=
  if isViewEditMode formState
  then negb (enableEditButtons formState)
  else negb (enableCreateButtons formState).

(** [sequences && sequences?.length > 0], read as a condition. *)
Definition hasSequences (sequences : maybe (list ImmunizationSequence)) : bool :=
  match sequences with
  | Val l => (0 <? Z.of_nat (List.length l))
  | _ => false
  end.

(** ** The mount effect *)

Definition formStateFromParam (params : ImmunizationFormData)
  : ImmunizationFormState := {|
  immunizationObsUuid := FormData.immunizationObsUuid params;
  vaccineName := FormData.vaccineName params;
  vaccineUuid := FormData.vaccineUuid params;
  manufacturer := FormData.manufacturer params;
  lotNumber := FormData.lotNumber params;
  expirationDate := FormData.expirationDate params;
  vaccinationDate := FormData.vaccinationDate params;
  formChanged := false;
  sequences :=
    if hasSequences (FormData.sequences params)
    then match FormData.sequences params with Val l => l | _ => [] end
    else [];
  currentDose :=
    match FormData.currentDose params with
    | Val dose => dose
    | _ => defaultDose
    end
|}.

(** The effect run on mount and whenever [props.match.params] changes: the
    state it leaves, given the state before. *)
Definition mountEffect (params : maybe ImmunizationFormData)
                       (state : ImmunizationFormState)
  : ImmunizationFormState :=
  if truthyObj params
  then match params with
       | Val p => formStateFromParam p
       | _ => state
       end
  else state.

(** ** The sequence selector *)

Definition isNumber (value : jsstring) : bool := negb (isNaN value).

(** The predicate handed to [Array.prototype.find]. *)
Definition doseMatches (value : jsstring) (s : ImmunizationSequence) : bool :=
  isNumber value
  && match sequenceNumber s with
     | Val n => strictEq n (parseInt value)
     | _ => false
     end.

(** [onDoseSelect], for a change event whose [target.value] is [value]: the
    dose is looked up in the rendered [formState] and stored by a merge
    update of the current state. *)
Definition onDoseSelect (formState : ImmunizationFormState) (value : jsstring)
  : ImmunizationFormState -> ImmunizationFormState :=
  let currentDose :=
    match find (doseMatches value) (sequences formState) with
    | Some s => s
    | None => defaultDose
    end in
  updateSingle CurrentDose currentDose.

(** The change events of the form's inputs: the sequence dropdown and the
    four text and date inputs, each with its [target.value]. *)
Inductive inputChange : Type :=
| ChangeSequence (value : jsstring)
| ChangeVaccinationDate (value : string)
| ChangeExpirationDate (value : string)
| ChangeLotNumber (value : string)
| ChangeManufacturer (value : string).

(** The updater the input's own [onChange] hands to [setFormState]. *)
Definition inputOnChange (formState : ImmunizationFormState) (c : inputChange)
  : ImmunizationFormState -> ImmunizationFormState :=
  match c with
  | ChangeSequence value => onDoseSelect formState value
  | ChangeVaccinationDate value => updateSingle VaccinationDate (Val value)
  | ChangeExpirationDate value => updateSingle ExpirationDate (Val value)
  | ChangeLotNumber value => updateSingle LotNumber (Val value)
  | ChangeManufacturer value => updateSingle Manufacturer (Val value)
  end.

(** ** The host: session, patient, translation, prompt *)

Record Ref : Type := { uuid : maybe string }.

Record SessionUser : Type := {
  sessionLocation : maybe Ref;
  currentProvider : maybe Ref
}.

Record VisitItem : Type := { visitData : maybe Ref }.

(** What one render of the component reads from its hooks and globals:
    [t] of [useTranslation] (key and default text), [patientUuid] of
    [useCurrentPatient], [currentUser] of [useSessionUser], the subject
    [getStartedVisit] (absent, or holding its current value) and the answer
    the user gives to [window.confirm]. *)
Record Env : Type := {
  t : string -> string -> string;
  patientUuid : maybe string;
  currentUser : maybe SessionUser;
  getStartedVisit : maybe (maybe VisitItem);
  confirm : string -> bool
}.

(** The response of the save call, as far as the form reads it. *)
Record Response : Type := { status : Z }.

Section Component.

(** Declared in [./immunization-mapper] and [@openmrs/esm-error-handling]:
    the mapped resource and the mapper are taken as given, as is the type
    of a rejection reason. *)
Variable FHIRResource : Type.
Variable mapToFHIRImmunizationResource :
  ImmunizationFormData -> maybe string -> maybe string -> maybe string
  -> FHIRResource.
Variable Reason : Type.

(** How the save promise settles. *)
Inductive outcome : Type :=
| Resolved (response : Response)
| Rejected (reason : Reason).

(** What the component does to its surroundings. *)
Inductive event : Type :=
| PreventDefault
| EntryStarted
| EntryCancelled
| CloseComponent
| HistoryPush (path : string)
| ConfirmPrompt (message : string)
| SavePatientImmunization (resource : FHIRResource)
                          (patient : maybe string)
                          (immunizationObs : maybe string)
                          (abortController : nat)
| CreateErrorHandler (reason : Reason)
| Abort (abortController : nat).

(** The component instance and its surroundings: the form state, the
    events so far (oldest first), the number of abort controllers created,
    those aborted, and the save requests still in flight (by controller). *)
Record World : Type := {
  formState : ImmunizationFormState;
  trace : list event;
  controllers : nat;
  aborted : list nat;
  pending : list nat
}.

Definition M (A : Type) : Type := World -> A * World.

Definition ret {A : Type} (a : A) : M A := fun w => (a, w).

Definition bind {A B : Type} (m : M A) (k : A -> M B) : M B :=
  fun w => let (a, w') := m w in k a w'.

Notation "x <- m ;; k" := (bind m (fun x => k))
  (at level 61, m at next level, right associativity).
Notation "m ;; k" := (bind m (fun _ => k))
  (at level 61, right associativity).

Definition emit (e : event) : M unit :=
  fun w => (tt, {| formState := formState w; trace := trace w ++ [e];
                   controllers := controllers w; aborted := aborted w;
                   pending := pending w |}).

Definition setFormState
  (updater : ImmunizationFormState -> ImmunizationFormState) : M unit :=
  fun w => (tt, {| formState := updater (formState w); trace := trace w;
                   controllers := controllers w; aborted := aborted w;
                   pending := pending w |}).

(** [new AbortController()]. *)
Definition newAbortController : M nat :=
  fun w => (controllers w,
            {| formState := formState w; trace := trace w;
               controllers := S (controllers w); aborted := aborted w;
               pending := pending w |}).

(** [abortController.abort()]. *)
Definition abort (c : nat) : M unit :=
  fun w => (tt, {| formState := formState w; trace := trace w ++ [Abort c];
                   controllers := controllers w; aborted := c :: aborted w;
                   pending := pending w |}).

(** The call of [savePatientImmunization]: the request is in flight until
    its promise settles. *)
Definition savePatientImmunization (resource : FHIRResource)
    (patient immunizationObs : maybe string) (c : nat) : M unit :=
  fun w => (tt, {| formState := formState w;
                   trace := trace w
                            ++ [SavePatientImmunization resource patient
                                                        immunizationObs c];
                   controllers := controllers w; aborted := aborted w;
                   pending := pending w ++ [c] |}).

Definition immunizationsPath (env : Env) : string :=
  ("/patient/" ++ toStr (patientUuid env) ++ "/chart/immunizations")%string.

Definition navigate (env : Env) : M unit :=
  emit (HistoryPush (immunizationsPath env)) ;;
  emit CloseComponent.

(** The object [immunization] that [handleFormSubmit] assembles. *)
Definition immunization (env : Env) (formState : ImmunizationFormState)
  : ImmunizationFormData := {|
  FormData.patientUuid := patientUuid env;
  FormData.immunizationObsUuid := immunizationObsUuid formState;
  FormData.vaccineName := vaccineName formState;
  FormData.vaccineUuid := vaccineUuid formState;
  FormData.manufacturer := manufacturer formState;
  FormData.expirationDate := expirationDate formState;
  FormData.vaccinationDate := vaccinationDate formState;
  FormData.lotNumber := lotNumber formState;
  FormData.sequences := Undefined;
  FormData.currentDose := Val (currentDose formState)
|}.

(** The session identifiers [handleFormSubmit] reads, each possibly
    absent. *)
Definition currentVisitUuid (env : Env) : maybe string :=
  optChain (optChain (optChain (getStartedVisit env) (fun v => v)) visitData)
           uuid.

Definition currentLocationUuid (env : Env) : maybe string :=
  optChain (optChain (currentUser env) sessionLocation) uuid.

Definition currentProviderUuid (env : Env) : maybe string :=
  optChain (optChain (currentUser env) currentProvider) uuid.

(** The call of the save function made by a submission of [formState], as
    it shows in the trace. *)
Definition saveEvent (env : Env) (formState : ImmunizationFormState)
    (abortController : nat) : event :=
  SavePatientImmunization
    (mapToFHIRImmunizationResource (immunization env formState)
       (currentVisitUuid env) (currentLocationUuid env)
       (currentProviderUuid env))
    (patientUuid env) (immunizationObsUuid formState) abortController.

(** [handleFormSubmit], up to the call of [then]; its result is the
    function it returns, [() => abortController.abort()]. *)
Definition handleFormSubmit (env : Env) (formState : ImmunizationFormState)
  : M (M unit) :=
  emit PreventDefault ;;
  abortController <- newAbortController ;;
  savePatientImmunization
    (mapToFHIRImmunizationResource (immunization env formState)
       (currentVisitUuid env) (currentLocationUuid env)
       (currentProviderUuid env))
    (patientUuid env) (immunizationObsUuid formState) abortController ;;
  ret (abort abortController).

(** The two callbacks given to [then]. *)
Definition onFulfilled (env : Env) (response : Response) : M unit :=
  if status response =? 200 then navigate env else ret tt.

Definition onRejected (reason : Reason) : M unit :=
  emit (CreateErrorHandler reason).

Definition removePending (c : nat) : M unit :=
  fun w => (tt, {| formState := formState w; trace := trace w;
                   controllers := controllers w; aborted := aborted w;
                   pending := filter (fun x => negb (Nat.eqb x c))
                                     (pending w) |}).

(** The save request of controller [c] settles: the callback for the
    outcome runs, once. [env] is the render the submit handler closed
    over. *)
Definition settle (env : Env) (c : nat) (o : outcome) : M unit :=
  fun w =>
    if existsb (Nat.eqb c) (pending w) then
      (removePending c ;;
       match o with
       | Resolved response => onFulfilled env response
       | Rejected reason => onRejected reason
       end) w
    else (tt, w).

Definition closeForm (env : Env) (formState : ImmunizationFormState)
  : M unit :=
  let defaultConfirmMessage :=
    "There is ongoing work, are you sure you want to close this tab?"%string in
  let confirmMessage :=
    t env "close form confirm message"%string defaultConfirmMessage in
  userConfirmed <-
    (if formChanged formState
     then emit (ConfirmPrompt confirmMessage) ;;
          ret (confirm env confirmMessage)
     else ret false) ;;
  if userConfirmed && formChanged formState then
    emit EntryCancelled ;;
    emit (HistoryPush (immunizationsPath env)) ;;
    emit CloseComponent
  else if negb (formChanged formState) then
    emit EntryCancelled ;;
    emit (HistoryPush (immunizationsPath env)) ;;
    emit CloseComponent
  else ret tt.

(** The form's own [onChange], reached by every input's change event. *)
Definition formOnChange : M unit :=
  setFormState (updateSingle FormChanged true) ;;
  emit EntryStarted.

(** ** The rendered component and its events

    Each handler is the one of the latest render: it closes over the
    current form state. *)

(** A change event of an input: the input's handler, then the form's. *)
Definition changeInput (c : inputChange) : M unit :=
  fun w => (setFormState (inputOnChange (formState w) c) ;; formOnChange) w.

(** A click on the cancel button. *)
Definition clickCancel (env : Env) : M unit :=
  fun w => closeForm env (formState w) w.

(** A submit event of the form: [onSubmit={handleFormSubmit}]. The
    dispatcher calls the handler and does nothing with what it returns. *)
Definition submitForm (env : Env) : M unit :=
  fun w => (_ <- handleFormSubmit env (formState w) ;; ret tt) w.

(** The cleanups the component's effects register: its one effect, the
    mount effect, returns none. *)
Definition effectCleanups : list (M unit) := [].

(** Tear-down of the component: the registered effect cleanups run. *)
Definition unmount : M unit :=
  fold_right (fun cleanup rest => cleanup ;; rest) (ret tt) effectCleanups.

(** The mount effect as an event of the component. *)
Definition mount (params : maybe ImmunizationFormData) : M unit :=
  setFormState (mountEffect params).

Definition newWorld : World :=
  {| formState := initialState; trace := []; controllers := 0%nat;
     aborted := []; pending := [] |}.

(** What can happen to a component instance: the mount effect runs, an
    input changes, cancel is clicked, the form is submitted, a save request
    settles, the component is torn down. *)
Inductive componentEvent : Type :=
| DoMount (params : maybe ImmunizationFormData)
| DoChange (c : inputChange)
| DoCancel
| DoSubmit
| DoSettle (abortController : nat) (o : outcome)
| DoUnmount.

Definition step (env : Env) (e : componentEvent) : M unit :=
  match e with
  | DoMount params => mount params
  | DoChange c => changeInput c
  | DoCancel => clickCancel env
  | DoSubmit => submitForm env
  | DoSettle c o => settle env c o
  | DoUnmount => unmount
  end.

Fixpoint runEvents (env : Env) (es : list componentEvent) (w : World) : World :=
  match es with
  | [] => w
  | e :: es' => runEvents env es' (snd (step env e w))
  end.

Definition isAbort (e : event) : bool :=
  match e with
  | Abort _ => true
  | _ => false
  end.

End Component.

Arguments Resolved {Reason} response.
Arguments Rejected {Reason} reason.
Arguments PreventDefault {FHIRResource Reason}.
Arguments EntryStarted {FHIRResource Reason}.
Arguments EntryCancelled {FHIRResource Reason}.
Arguments CloseComponent {FHIRResource Reason}.
Arguments HistoryPush {FHIRResource Reason} path.
Arguments ConfirmPrompt {FHIRResource Reason} message.
Arguments SavePatientImmunization {FHIRResource Reason}.
Arguments CreateErrorHandler {FHIRResource Reason} reason.
Arguments Abort {FHIRResource Reason} abortController.
Arguments formState {FHIRResource Reason} w.
Arguments trace {FHIRResource Reason} w.
Arguments controllers {FHIRResource Reason} w.
Arguments aborted {FHIRResource Reason} w.
Arguments pending {FHIRResource Reason} w.
Arguments newWorld {FHIRResource Reason}.
Arguments M FHIRResource Reason A : clear implicits.
Arguments ret {FHIRResource Reason A} a.
Arguments bind {FHIRResource Reason A B} m k.
Arguments emit {FHIRResource Reason} e.
Arguments setFormState {FHIRResource Reason} updater.
Arguments newAbortController {FHIRResource Reason}.
Arguments abort {FHIRResource Reason} c.
Arguments savePatientImmunization {FHIRResource Reason} resource patient
  immunizationObs c.
Arguments navigate {FHIRResource Reason} env.
Arguments handleFormSubmit {FHIRResource} mapToFHIRImmunizationResource
  {Reason} env formState.
Arguments saveEvent {FHIRResource} mapToFHIRImmunizationResource
  {Reason} env formState abortController.
Arguments onFulfilled {FHIRResource Reason} env response.
Arguments onRejected {FHIRResource Reason} reason.
Arguments removePending {FHIRResource Reason} c.
Arguments settle {FHIRResource Reason} env c o.
Arguments closeForm {FHIRResource Reason} env formState.
Arguments formOnChange {FHIRResource Reason}.
Arguments changeInput {FHIRResource Reason} c.
Arguments clickCancel {FHIRResource Reason} env.
Arguments submitForm {FHIRResource} mapToFHIRImmunizationResource
  {Reason} env.
Arguments effectCleanups {FHIRResource Reason}.
Arguments unmount {FHIRResource Reason}.
Arguments mount {FHIRResource Reason} params.
Arguments DoMount {Reason} params.
Arguments DoChange {Reason} c.
Arguments DoCancel {Reason}.
Arguments DoSubmit {Reason}.
Arguments DoSettle {Reason} abortController o.
Arguments DoUnmount {Reason}.
Arguments step {FHIRResource} mapToFHIRImmunizationResource {Reason} env e.
Arguments runEvents {FHIRResource} mapToFHIRImmunizationResource {Reason}
  env es w.
Arguments isAbort {FHIRResource Reason} e.

(** ** What the form renders *)

(** The [className] of the submit button. *)
Definition submitClassName (formState : ImmunizationFormState) : string :=
  if enableCreateButtons formState || enableEditButtons formState
  then "omrs-btn omrs-filled-action omrs-rounded"%string
  else "omrs-btn omrs-outlined omrs-rounded"%string.

(** Whether the button bar gets [styles.buttonStylesBorder] besides
    [styles.buttonStyles]. *)
Definition buttonBarBordered (formState : ImmunizationFormState) : bool :=
  enableCreateButtons formState || enableEditButtons formState.

(** Whether the sequence dropdown is rendered. *)
Definition showSequenceSelect (formState : ImmunizationFormState) : bool :=
  hasSequences (Val (sequences formState)).

(** The [value] of the sequence dropdown. *)
Definition selectValue (formState : ImmunizationFormState) : maybe num :=
  sequenceNumber (currentDose formState).

(** ** Kinds of events *)

Definition isMountEvent {Reason : Type} (e : componentEvent Reason) : bool :=
  match e with
  | DoMount _ => true
  | _ => false
  end.

Definition isChangeEvent {Reason : Type} (e : componentEvent Reason) : bool :=
  match e with
  | DoChange _ => true
  | _ => false
  end.

Definition isSubmitEvent {Reason : Type} (e : componentEvent Reason) : bool :=
  match e with
  | DoSubmit => true
  | _ => false
  end.

Definition isSettleEvent {Reason : Type} (e : componentEvent Reason) : bool :=
  match e with
  | DoSettle _ _ => true
  | _ => false
  end.

(** The events on which the form can leave: a cancel click, and a save
    that resolves with status 200. *)
Definition mayLeave {Reason : Type} (e : componentEvent Reason) : bool :=
  match e with
  | DoCancel => true
  | DoSettle _ (Resolved response) => status response =? 200
  | _ => false
  end.

(** A push on the history or a [closeComponent] call. *)
Definition isLeaving {FHIRResource Reason : Type}
    (e : event FHIRResource Reason) : bool :=
  match e with
  | HistoryPush _ => true
  | CloseComponent => true
  | _ => false
  end.

Definition isEntryStarted {FHIRResource Reason : Type}
    (e : event FHIRResource Reason) : bool :=
  match e with
  | EntryStarted => true
  | _ => false
  end.

(** The selected dose is the empty default or one of the available
    sequences. *)
Definition doseListed (formState : ImmunizationFormState) : Prop :=
  currentDose formState = defaultDose
  \/ In (currentDose formState) (sequences formState).

(** ** A sample session

    An edit of a recorded two-dose vaccination, used where the properties
    below are run on concrete values. *)

Definition dose1 : ImmunizationSequence :=
  {| sequenceLabel := Val "Dose-1"%string; sequenceNumber := Val (Int 1) |}.

Definition dose2 : ImmunizationSequence :=
  {| sequenceLabel := Val "Dose-2"%string; sequenceNumber := Val (Int 2) |}.

Definition sampleParams : ImmunizationFormData := {|
  FormData.patientUuid := Undefined;
  FormData.immunizationObsUuid := Val "b9c21a82-aed3-11ea-b3de-0242ac130004"%string;
  FormData.vaccineName := Val "Rotavirus"%string;
  FormData.vaccineUuid := Val "RotavirusUuid"%string;
  FormData.manufacturer := Val "XYTR4"%string;
  FormData.expirationDate := Val "2020-12-15"%string;
  FormData.vaccinationDate := Val "2020-12-15"%string;
  FormData.lotNumber := Val "PT123F"%string;
  FormData.sequences := Val [dose1; dose2];
  FormData.currentDose := Val dose1
|}.

(** A second entry numbered 1, after [dose1]. *)
Definition repeatedDose : ImmunizationSequence :=
  {| sequenceLabel := Val "Booster"%string; sequenceNumber := Val (Int 1) |}.

(** Parameters of a new record: no observation, no sequences, no dose. *)
Definition newRecordParams : ImmunizationFormData := {|
  FormData.patientUuid := Undefined;
  FormData.immunizationObsUuid := Undefined;
  FormData.vaccineName := Val "Rotavirus"%string;
  FormData.vaccineUuid := Val "RotavirusUuid"%string;
  FormData.manufacturer := Undefined;
  FormData.expirationDate := Undefined;
  FormData.vaccinationDate := Undefined;
  FormData.lotNumber := Undefined;
  FormData.sequences := Undefined;
  FormData.currentDose := Undefined
|}.

(** A host whose translation returns the default text, with no session and
    no started visit, and a user who answers the prompt with [answer]. *)
Definition sampleEnv (answer : bool) : Env := {|
  t := fun _ defaultText => defaultText;
  patientUuid := Val "8673ee4f-e2ab-4077-ba55-4980f408773e"%string;
  currentUser := Undefined;
  getStartedVisit := Undefined;
  confirm := fun _ => answer
|}.

(** A mapper that keeps its arguments, and text for rejection reasons. *)
Definition SampleResource : Type :=
  (ImmunizationFormData * (maybe string * maybe string * maybe string))%type.

Definition keepArguments (immunization : ImmunizationFormData)
    (visit location provider : maybe string) : SampleResource :=
  (immunization, (visit, location, provider)).

Definition SampleWorld : Type := World SampleResource string.

(** The world after the sample edit session is mounted, and after one of
    its inputs changed. *)
Definition mountedWorld : SampleWorld :=
  snd (mount (Val sampleParams) newWorld).

Definition changedWorld : SampleWorld :=
  snd (changeInput (ChangeLotNumber "PT123G") mountedWorld).

(** What the user does in the sample session after the mount: a change of
    the lot number, a submission, the choice of the second dose, a second
    submission; then the component is torn down. *)
Definition sampleSession : list (componentEvent string) :=
  [DoChange (ChangeLotNumber "PT123G"); DoSubmit;
   DoChange (ChangeSequence (str "2")); DoSubmit; DoUnmount].

(** A form that lists [repeatedDose] after [dose1]. *)
Definition repeatedState : ImmunizationFormState :=
  updateSingle Sequences [dose1; repeatedDose] initialState.

(** * Properties *)

(** ** Host values *)

Lemma truthy_true_iff (x : maybe string) :
  truthy x = true <-> exists s, x = Val s /\ s <> EmptyString.
Proof.
  destruct x as [| |s]; simpl.
  - split; [discriminate | intros (s & H & _); discriminate].
  - split; [discriminate | intros (s & H & _); discriminate].
  - destruct (String.eqb_spec s EmptyString) as [->|Hne]; simpl.
    + split; [discriminate | intros (s & H & Hs); inversion H; subst; now elim Hs].
    + split; [intros _; now exists s | reflexivity].
Qed.

Lemma truthy_false_iff (x : maybe string) :
  truthy x = false <-> x = Null \/ x = Undefined \/ x = Val EmptyString.
Proof.
  destruct x as [| |s]; simpl.
  - split; auto.
  - split; auto.
  - destruct (String.eqb_spec s EmptyString) as [->|Hne]; simpl.
    + split; auto.
    + split; [discriminate |].
      intros [H|[H|H]]; try discriminate. inversion H; subst; now elim Hne.
Qed.

Lemma strictEq_true_iff (a b : num) :
  strictEq a b = true <-> a = b /\ a <> NaN.
Proof.
  split.
  - destruct a as [|s|x|m e], b as [|r|y|n f]; simpl; try discriminate.
    + rewrite Bool.eqb_true_iff. intros ->. split; [reflexivity | discriminate].
    + rewrite Z.eqb_eq. intros ->. split; [reflexivity | discriminate].
    + rewrite andb_true_iff, Z.eqb_eq, Pos.eqb_eq. intros [-> ->].
      split; [reflexivity | discriminate].
  - intros [<- Hnan]. destruct a as [|s|x|m e]; simpl.
    + now elim Hnan.
    + apply Bool.eqb_reflx.
    + apply Z.eqb_refl.
    + now rewrite Z.eqb_refl, Pos.eqb_refl.
Qed.

(** ** Decimal numerals *)

Lemma isDigit_range (c : N) : isDigit c = true <-> (48 <= c <= 57)%N.
Proof.
  unfold isDigit, between. now rewrite andb_true_iff, !N.leb_le.
Qed.

Lemma digit_not_whiteSpace (c : N) : isDigit c = true -> isWhiteSpace c = false.
Proof.
  rewrite isDigit_range. intros [Hlo Hhi]. unfold isWhiteSpace, between.
  repeat (apply orb_false_iff; split);
    try (apply N.eqb_neq; lia);
    apply andb_false_iff; [right | left]; apply N.leb_gt; lia.
Qed.

Lemma digit_not_sign (c : N) :
  isDigit c = true -> ((c =? 43) || (c =? 45))%N = false.
Proof.
  rewrite isDigit_range. intros [Hlo Hhi].
  apply orb_false_iff; split; apply N.eqb_neq; lia.
Qed.

Lemma digit_not_hex_mark (c : N) :
  isDigit c = true -> ((c =? 120) || (c =? 88))%N = false.
Proof.
  rewrite isDigit_range. intros [Hlo Hhi].
  apply orb_false_iff; split; apply N.eqb_neq; lia.
Qed.

Lemma digitValue_digit (r : N) : (r < 10)%N -> digitValue (48 + r) = Z.of_N r.
Proof.
  intros Hr. unfold digitValue.
  replace (isDigit (48 + r)) with true
    by (symmetry; apply isDigit_range; lia).
  f_equal. lia.
Qed.

Lemma takeWhile_all (p : N -> bool) (l : jsstring) :
  forallb p l = true -> takeWhile p l = l.
Proof.
  induction l as [|c l IH]; simpl; [reflexivity |].
  rewrite andb_true_iff. intros [-> Hl]. now rewrite IH.
Qed.

Lemma dropWhile_all (p : N -> bool) (l : jsstring) :
  forallb p l = true -> dropWhile p l = [].
Proof.
  induction l as [|c l IH]; simpl; [reflexivity |].
  rewrite andb_true_iff. intros [-> Hl]. now apply IH.
Qed.

Lemma trimStart_head (c : N) (l : jsstring) :
  isWhiteSpace c = false -> trimStart (c :: l) = c :: l.
Proof. intros H. unfold trimStart; simpl. now rewrite H. Qed.

Lemma trim_no_whiteSpace (l : jsstring) :
  forallb (fun c => negb (isWhiteSpace c)) l = true -> trim l = l.
Proof.
  intros Hl. unfold trim.
  assert (Hstart : forall k, forallb (fun c => negb (isWhiteSpace c)) k = true ->
                             trimStart k = k).
  { intros [|c k]; simpl; [reflexivity |].
    rewrite andb_true_iff, negb_true_iff. intros [Hc _].
    now apply trimStart_head. }
  rewrite (Hstart l Hl), Hstart, rev_involutive; [reflexivity |].
  rewrite forallb_forall in *. intros c Hc. apply Hl. now apply in_rev.
Qed.

Lemma mathInt_snoc (radix : Z) (l : jsstring) (c : N) :
  mathInt radix (l ++ [c]) = mathInt radix l * radix + digitValue c.
Proof. unfold mathInt. now rewrite fold_left_app. Qed.

Lemma decimalDigits_acc (fuel : nat) (n : N) (acc : jsstring) :
  decimalDigits fuel n acc = decimalDigits fuel n [] ++ acc.
Proof.
  revert n acc. induction fuel as [|fuel IH]; intros n acc; simpl.
  - reflexivity.
  - destruct (n / 10 =? 0)%N.
    + reflexivity.
    + rewrite IH, (IH _ [_]), <- app_assoc. reflexivity.
Qed.

Lemma decimalDigits_step (fuel : nat) (n : N) :
  decimalDigits (S fuel) n []
  = (if (n / 10 =? 0)%N then [] else decimalDigits fuel (n / 10) [])
    ++ [(48 + n mod 10)%N].
Proof.
  simpl. destruct (n / 10 =? 0)%N; [reflexivity | apply decimalDigits_acc].
Qed.

Lemma decimalDigits_digits (fuel : nat) (n : N) :
  forallb isDigit (decimalDigits fuel n []) = true.
Proof.
  revert n. induction fuel as [|fuel IH]; intros n.
  - reflexivity.
  - rewrite decimalDigits_step, forallb_app. apply andb_true_iff. split.
    + destruct (n / 10 =? 0)%N; [reflexivity | apply IH].
    + cbn [forallb]. rewrite andb_true_r. apply isDigit_range.
      pose proof (N.mod_lt n 10 ltac:(discriminate)) as Hr.
      remember (n mod 10)%N as r. lia.
Qed.

Lemma decimalDigits_value (fuel : nat) (n : N) :
  (n < 2 ^ N.of_nat fuel)%N ->
  mathInt 10 (decimalDigits fuel n []) = Z.of_N n.
Proof.
  revert n. induction fuel as [|fuel IH]; intros n Hn.
  - simpl in Hn. assert (n = 0%N) by lia. now subst.
  - rewrite decimalDigits_step, mathInt_snoc.
    rewrite digitValue_digit by (apply N.mod_lt; discriminate).
    pose proof (N.div_mod n 10 ltac:(discriminate)) as Hdm.
    pose proof (N.mod_lt n 10 ltac:(discriminate)) as Hr.
    rewrite Nat2N.inj_succ, N.pow_succ_r' in Hn.
    specialize (IH (n / 10)%N).
    remember (n / 10)%N as q. remember (n mod 10)%N as r.
    remember (2 ^ N.of_nat fuel)%N as bound.
    destruct (N.eqb_spec q 0) as [Hz|Hnz].
    + cbn [mathInt fold_left app]. lia.
    + rewrite IH; lia.
Qed.

Lemma decimalDigits_nonEmpty (fuel : nat) (n : N) :
  nonEmpty (decimalDigits (S fuel) n []) = true.
Proof.
  rewrite decimalDigits_step.
  destruct (if (n / 10 =? 0)%N then [] else decimalDigits fuel (n / 10) []);
    reflexivity.
Qed.

(** The digits of a number's decimal numeral, and its sign. *)
Lemma numberToString_shape (z : Z) :
  exists digits,
    numberToString z = (if z <? 0 then [45%N] else []) ++ digits
    /\ nonEmpty digits = true
    /\ forallb isDigit digits = true
    /\ mathInt 10 digits = Z.abs z.
Proof.
  unfold numberToString.
  set (n := Z.to_N (Z.abs z)).
  exists (decimalDigits (S (N.to_nat (N.log2 n))) n []).
  split; [destruct (z <? 0); reflexivity |].
  split; [apply decimalDigits_nonEmpty |].
  split; [apply decimalDigits_digits |].
  rewrite decimalDigits_value.
  - subst n. lia.
  - rewrite Nat2N.inj_succ, N2Nat.id.
    destruct (N.eq_dec n 0) as [->|Hn]; [reflexivity |].
    apply N.log2_spec. lia.
Qed.

Lemma forallb_digit_no_whiteSpace (l : jsstring) :
  forallb isDigit l = true ->
  forallb (fun c => negb (isWhiteSpace c)) l = true.
Proof.
  rewrite !forallb_forall. intros H c Hc.
  now rewrite digit_not_whiteSpace by auto.
Qed.

Lemma isUnsignedDecimal_digits (digits : jsstring) :
  nonEmpty digits = true ->
  forallb isDigit digits = true ->
  isUnsignedDecimal digits = true.
Proof.
  destruct digits as [|c digits]; [discriminate |]. intros _ Hall.
  unfold isUnsignedDecimal.
  rewrite (takeWhile_all _ _ Hall), (dropWhile_all _ _ Hall).
  cbn [forallb] in Hall. apply andb_true_iff in Hall as [Hc _].
  apply isDigit_range in Hc.
  replace (eqUnits (c :: digits) (str "Infinity")) with false; [reflexivity |].
  symmetry. cbn. apply andb_false_iff. left. apply N.eqb_neq. lia.
Qed.

Lemma isNumber_digits (negative : bool) (digits : jsstring) :
  nonEmpty digits = true ->
  forallb isDigit digits = true ->
  isNumber ((if negative then [45%N] else []) ++ digits) = true.
Proof.
  intros Hne Hall. unfold isNumber, isNaN. rewrite negb_involutive.
  unfold isNumericString. rewrite trim_no_whiteSpace.
  - destruct negative; cbn [app].
    + replace ((45 =? 43) || (45 =? 45))%N with true by reflexivity.
      rewrite isUnsignedDecimal_digits by assumption. apply orb_true_r.
    + destruct digits as [|c digits]; [discriminate |].
      rewrite digit_not_sign.
      * rewrite isUnsignedDecimal_digits by assumption. apply orb_true_r.
      * cbn [forallb] in Hall. now apply andb_true_iff in Hall.
  - rewrite forallb_app. apply andb_true_iff. split.
    + now destruct negative.
    + now apply forallb_digit_no_whiteSpace.
Qed.

Lemma parseInt_digits (negative : bool) (digits : jsstring) :
  nonEmpty digits = true ->
  forallb isDigit digits = true ->
  parseInt ((if negative then [45%N] else []) ++ digits)
  = toDouble (if negative then - mathInt 10 digits else mathInt 10 digits).
Proof.
  intros Hne Hall.
  destruct digits as [|c digits]; [discriminate |].
  pose proof Hall as Hall'. cbn [forallb] in Hall'.
  apply andb_true_iff in Hall' as [Hc Hrest].
  assert (Hhex : match c :: digits with
                 | z :: x :: _ => ((z =? 48) && ((x =? 120) || (x =? 88)))%N
                 | _ => false
                 end = false).
  { destruct digits as [|x digits]; [reflexivity |].
    cbn [forallb] in Hrest. apply andb_true_iff in Hrest as [Hx _].
    rewrite (digit_not_hex_mark x Hx). apply andb_false_r. }
  unfold parseInt. destruct negative; cbn [app].
  - rewrite trimStart_head by reflexivity.
    replace ((45 =? 43) || (45 =? 45))%N with true by reflexivity.
    replace (45 =? 45)%N with true by reflexivity.
    cbv zeta. rewrite Hhex. rewrite (takeWhile_all _ _ Hall). reflexivity.
  - rewrite trimStart_head by now apply digit_not_whiteSpace.
    cbv zeta. rewrite (digit_not_sign c Hc).
    replace (c =? 45)%N with false.
    + rewrite Hhex. rewrite (takeWhile_all _ _ Hall). reflexivity.
    + symmetry. apply N.eqb_neq. apply isDigit_range in Hc. lia.
Qed.

Lemma toDouble_exact (z : Z) : Z.abs z < 2 ^ 53 -> toDouble z = Int z.
Proof.
  intros Hz. unfold toDouble.
  apply Z.ltb_lt in Hz. now rewrite Hz.
Qed.

Lemma isNumber_numberToString (z : Z) : isNumber (numberToString z) = true.
Proof.
  destruct (numberToString_shape z) as (digits & -> & Hne & Hall & _).
  now apply isNumber_digits.
Qed.

Lemma parseInt_numberToString (z : Z) :
  parseInt (numberToString z) = toDouble z.
Proof.
  destruct (numberToString_shape z) as (digits & -> & Hne & Hall & Hval).
  rewrite parseInt_digits by assumption. rewrite Hval.
  f_equal. destruct (Z.ltb_spec z 0); lia.
Qed.

(** ** The form state holder *)

Lemma fieldName_eq_dec (a b : fieldName) : {a = b} + {a <> b}.
Proof. decide equality. Defined.

Lemma getField_updateSingle_same (name : fieldName) (value : fieldType name)
    (state : ImmunizationFormState) :
  getField name (updateSingle name value state) = value.
Proof. destruct name; reflexivity. Qed.

Lemma getField_updateSingle_other (name other : fieldName)
    (value : fieldType name) (state : ImmunizationFormState) :
  other <> name ->
  getField other (updateSingle name value state) = getField other state.
Proof.
  intros Hne. destruct name; destruct other; try reflexivity; now elim Hne.
Qed.

(** C7. The merge update [updateSingle name value] gives a state whose
    field [name] holds [value] and whose every other field is the one of the
    state before. *)
Theorem updateSingle_frame (name : fieldName) (value : fieldType name)
    (state : ImmunizationFormState) :
  getField name (updateSingle name value state) = value
  /\ forall other : fieldName,
       other <> name ->
       getField other (updateSingle name value state) = getField other state.
Proof.
  split.
  - apply getField_updateSingle_same.
  - intros other Hne. now apply getField_updateSingle_other.
Qed.


(** ** Render conditions *)

(** C5. The component is in edit mode exactly when the observation
    identifier is present and non-empty, and [enableCreateButtons] and
    [enableEditButtons] are never both true. *)
Theorem edit_mode_iff_observation_present (formState : ImmunizationFormState) :
  (isViewEditMode formState = true
   <-> exists u, immunizationObsUuid formState = Val u /\ u <> EmptyString)
  /\ enableCreateButtons formState && enableEditButtons formState = false.
Proof.
  split.
  - unfold isViewEditMode. apply truthy_true_iff.
  - unfold enableCreateButtons, enableEditButtons.
    destruct (isViewEditMode formState); simpl.
    + reflexivity.
    + now rewrite andb_false_r.
Qed.

(** ** The mount effect *)

Lemma hasSequences_true_iff (s : maybe (list ImmunizationSequence)) :
  hasSequences s = true <-> exists l, s = Val l /\ l <> [].
Proof.
  destruct s as [| |l]; simpl.
  - split; [discriminate | intros (l & H & _); discriminate].
  - split; [discriminate | intros (l & H & _); discriminate].
  - destruct l as [|x l]; simpl.
    + split; [discriminate | intros (l & H & Hl); inversion H; subst; now elim Hl].
    + split; [intros _; exists (x :: l); split; [reflexivity | discriminate]
             | reflexivity].
Qed.

Lemma formStateFromParam_sequences (params : ImmunizationFormData) :
  sequences (formStateFromParam params)
  = match FormData.sequences params with Val l => l | _ => [] end.
Proof.
  unfold formStateFromParam; simpl.
  destruct (FormData.sequences params) as [| |[|x l]]; reflexivity.
Qed.

Lemma mountEffect_params (params : ImmunizationFormData)
    (state : ImmunizationFormState) :
  mountEffect (Val params) state = formStateFromParam params.
Proof. reflexivity. Qed.

(** C6. Mounted with parameters that carry a non-empty sequence list and a
    selected dose, the form state holds exactly the parameters' values, and
    the form is in edit mode when the observation identifier is present. *)
Theorem mount_reproduces_params (params : ImmunizationFormData)
    (l : list ImmunizationSequence) (dose : ImmunizationSequence)
    (state : ImmunizationFormState) :
  FormData.sequences params = Val l ->
  l <> [] ->
  FormData.currentDose params = Val dose ->
  let state' := mountEffect (Val params) state in
  vaccineName state' = FormData.vaccineName params
  /\ vaccineUuid state' = FormData.vaccineUuid params
  /\ immunizationObsUuid state' = FormData.immunizationObsUuid params
  /\ vaccinationDate state' = FormData.vaccinationDate params
  /\ expirationDate state' = FormData.expirationDate params
  /\ lotNumber state' = FormData.lotNumber params
  /\ manufacturer state' = FormData.manufacturer params
  /\ sequences state' = l
  /\ currentDose state' = dose
  /\ (forall u, FormData.immunizationObsUuid params = Val u ->
                u <> EmptyString -> isViewEditMode state' = true).
Proof.
  intros Hseq Hne Hdose state'. subst state'. rewrite mountEffect_params.
  repeat (split; [reflexivity |]).
  split; [| split].
  - rewrite formStateFromParam_sequences, Hseq. reflexivity.
  - simpl. now rewrite Hdose.
  - intros u Hu Hnu. unfold isViewEditMode; simpl.
    apply truthy_true_iff. now exists u.
Qed.

(** C9. Whatever the parameters, the state the mount effect produces has
    [formChanged] false, for [sequences] the parameters' list or the empty
    list when they carry none (or an empty one), and for [currentDose] the
    parameters' dose or the empty default when they carry none; so the edit
    buttons are not enabled at the start of a session. *)
Theorem mount_never_modified (params : ImmunizationFormData)
    (state : ImmunizationFormState) :
  let state' := mountEffect (Val params) state in
  formChanged state' = false
  /\ (hasSequences (FormData.sequences params) = false -> sequences state' = [])
  /\ (FormData.sequences params = Null \/ FormData.sequences params = Undefined
      \/ FormData.sequences params = Val [] -> sequences state' = [])
  /\ (forall l, FormData.sequences params = Val l -> sequences state' = l)
  /\ (FormData.currentDose params = Null
      \/ FormData.currentDose params = Undefined ->
      currentDose state' = defaultDose)
  /\ (forall dose, FormData.currentDose params = Val dose ->
                   currentDose state' = dose)
  /\ enableEditButtons state' = false.
Proof.
  intros state'. subst state'. rewrite mountEffect_params.
  split; [reflexivity |].
  split; [simpl; now intros -> |].
  split.
  { rewrite formStateFromParam_sequences.
    intros [H|[H|H]]; now rewrite H. }
  split.
  { intros l H. rewrite formStateFromParam_sequences. now rewrite H. }
  split; [simpl; intros [H|H]; now rewrite H |].
  split; [simpl; intros dose H; now rewrite H |].
  unfold enableEditButtons; simpl. apply andb_false_r.
Qed.

(** ** The sequence selector *)

Lemma find_first {A : Type} (p : A -> bool) (pre : list A) (x : A)
    (post : list A) :
  (forall y, In y pre -> p y = false) ->
  p x = true ->
  find p (pre ++ x :: post) = Some x.
Proof.
  intros Hpre Hx. induction pre as [|y pre IH]; simpl.
  - now rewrite Hx.
  - rewrite (Hpre y (or_introl eq_refl)). apply IH.
    intros z Hz. apply Hpre. now right.
Qed.

Lemma find_absent {A : Type} (p : A -> bool) (l : list A) :
  (forall y, In y l -> p y = false) -> find p l = None.
Proof.
  induction l as [|y l IH]; simpl; intros H.
  - reflexivity.
  - rewrite (H y (or_introl eq_refl)). apply IH.
    intros z Hz. apply H. now right.
Qed.

Lemma doseMatches_true_iff (value : jsstring) (s : ImmunizationSequence) :
  doseMatches value s = true
  <-> isNumber value = true
      /\ sequenceNumber s = Val (parseInt value)
      /\ parseInt value <> NaN.
Proof.
  unfold doseMatches. rewrite andb_true_iff.
  destruct (sequenceNumber s) as [| |n].
  - split; [intros [_ H]; discriminate | intros (_ & H & _); discriminate].
  - split; [intros [_ H]; discriminate | intros (_ & H & _); discriminate].
  - rewrite strictEq_true_iff. split.
    + intros (Hn & Hp & Hnan). repeat split; congruence.
    + intros (Hn & H & Hnan). repeat split; congruence.
Qed.

Lemma doseMatches_false (value : jsstring) (s : ImmunizationSequence) :
  isNumber value = false \/ parseInt value = NaN
  \/ sequenceNumber s <> Val (parseInt value) ->
  doseMatches value s = false.
Proof.
  intros H. destruct (doseMatches value s) eqn:E; [| reflexivity].
  apply doseMatches_true_iff in E. destruct E as (Hn & Hs & Hnan).
  destruct H as [H|[H|H]]; [congruence | now elim Hnan | now elim H].
Qed.

Lemma sentinel_not_a_number : isNumber (str "DEFAULT") = false.
Proof. reflexivity. Qed.

Lemma onDoseSelect_first (formState state : ImmunizationFormState)
    (value : jsstring) (n : num) (pre : list ImmunizationSequence)
    (s : ImmunizationSequence) (post : list ImmunizationSequence) :
  isNumber value = true ->
  parseInt value = n ->
  n <> NaN ->
  sequences formState = pre ++ s :: post ->
  sequenceNumber s = Val n ->
  (forall x, In x pre -> sequenceNumber x <> Val n) ->
  currentDose (onDoseSelect formState value state) = s.
Proof.
  intros Hnum Hparse Hnan Hseq Hs Hpre. unfold onDoseSelect. simpl.
  rewrite Hseq, (find_first (doseMatches value) pre s post); [reflexivity | |].
  - intros y Hy. apply doseMatches_false. right. right.
    rewrite Hparse. now apply Hpre.
  - apply doseMatches_true_iff. rewrite Hparse. auto.
Qed.

(** C2. Selecting [value] in the sequence dropdown: when [value] is numeric
    and parses to the number [n], the selected dose becomes the (first)
    sequence of the rendered list whose [sequenceNumber] is [n]; when
    [value] is not numeric (as the sentinel of the "please select" option),
    does not parse to a number, or no sequence has that number, the selected
    dose becomes the empty default. The selector is total and leaves every
    other field as it was. *)
Theorem onDoseSelect_selects (formState state : ImmunizationFormState)
    (value : jsstring) :
  let state' := onDoseSelect formState value state in
  (forall n pre s post,
      isNumber value = true ->
      parseInt value = n ->
      n <> NaN ->
      sequences formState = pre ++ s :: post ->
      sequenceNumber s = Val n ->
      (forall x, In x pre -> sequenceNumber x <> Val n) ->
      currentDose state' = s)
  /\ (isNumber value = false -> currentDose state' = defaultDose)
  /\ (parseInt value = NaN -> currentDose state' = defaultDose)
  /\ ((forall x, In x (sequences formState) ->
                 sequenceNumber x <> Val (parseInt value)) ->
      currentDose state' = defaultDose)
  /\ currentDose (onDoseSelect formState (str "DEFAULT") state) = defaultDose
  /\ (forall other, other <> CurrentDose ->
                    getField other state' = getField other state).
Proof.
  intros state'. subst state'. unfold onDoseSelect.
  split; [| split; [| split; [| split; [| split]]]].
  - intros n pre s post. apply onDoseSelect_first.
  - intros Hnum. simpl. rewrite find_absent; [reflexivity |].
    intros y _. apply doseMatches_false. now left.
  - intros Hnan. simpl. rewrite find_absent; [reflexivity |].
    intros y _. apply doseMatches_false. right. now left.
  - intros Hnone. simpl. rewrite find_absent; [reflexivity |].
    intros y Hy. apply doseMatches_false. right. right. now apply Hnone.
  - simpl. rewrite find_absent; [reflexivity |].
    intros y _. apply doseMatches_false. left. apply sentinel_not_a_number.
  - intros other Hne.
    now apply getField_updateSingle_other.
Qed.

(** The option of a sequence numbered [z] carries the numeral of [z] as
    its value ([value={s.sequenceNumber}]); selecting it selects the first
    sequence of the rendered list with that number. *)
Theorem option_value_selects (formState state : ImmunizationFormState)
    (z : Z) (pre : list ImmunizationSequence) (s : ImmunizationSequence)
    (post : list ImmunizationSequence) :
  Z.abs z < 2 ^ 53 ->
  sequences formState = pre ++ s :: post ->
  sequenceNumber s = Val (Int z) ->
  (forall x, In x pre -> sequenceNumber x <> Val (Int z)) ->
  currentDose (onDoseSelect formState (numberToString z) state) = s.
Proof.
  intros Hz Hseq Hs Hpre.
  apply (onDoseSelect_first formState state (numberToString z) (Int z) pre s post);
    try assumption.
  - apply isNumber_numberToString.
  - rewrite parseInt_numberToString. now apply toDouble_exact.
  - discriminate.
Qed.

(** ** More on the sequence selector *)

Lemma onDoseSelect_currentDose (formState state : ImmunizationFormState)
    (value : jsstring) :
  currentDose (onDoseSelect formState value state)
  = match find (doseMatches value) (sequences formState) with
    | Some s => s
    | None => defaultDose
    end.
Proof. reflexivity. Qed.

Lemma find_in_prefix {A : Type} (p : A -> bool) (pre post : list A) (x : A) :
  In x pre -> p x = true ->
  exists y, find p (pre ++ post) = Some y /\ In y pre.
Proof.
  induction pre as [|a pre IH]; simpl; [contradiction |].
  intros Hin Hx. destruct (p a) eqn:Ha.
  - exists a. auto.
  - destruct Hin as [->|Hin]; [congruence |].
    destruct (IH Hin Hx) as (y & Hy & Hyin). exists y. auto.
Qed.

(** The dose the selector stores is the empty default or a sequence of the
    rendered list; in the second case the value was numeric and parses to
    that sequence's number. *)
Theorem selected_dose_default_or_listed (formState state : ImmunizationFormState)
    (value : jsstring) :
  let dose := currentDose (onDoseSelect formState value state) in
  dose = defaultDose
  \/ (In dose (sequences formState)
      /\ isNumber value = true
      /\ sequenceNumber dose = Val (parseInt value)
      /\ parseInt value <> NaN).
Proof.
  intros dose. subst dose. rewrite onDoseSelect_currentDose.
  destruct (find (doseMatches value) (sequences formState)) as [s|] eqn:Hfind.
  - right. apply find_some in Hfind as [Hin Hm].
    apply doseMatches_true_iff in Hm. tauto.
  - now left.
Qed.

(** A sequence that repeats the number of an earlier one is out of reach:
    no value of the dropdown selects it. *)
Theorem shadowed_sequence_never_selected
    (formState state : ImmunizationFormState) (value : jsstring)
    (pre : list ImmunizationSequence) (s : ImmunizationSequence)
    (post : list ImmunizationSequence) (x : ImmunizationSequence) (n : num) :
  sequences formState = pre ++ s :: post ->
  In x pre ->
  sequenceNumber x = Val n ->
  sequenceNumber s = Val n ->
  ~ In s pre ->
  currentDose (onDoseSelect formState value state) <> s.
Proof.
  intros Hseq Hx Hxn Hsn Hnot Heq.
  rewrite onDoseSelect_currentDose, Hseq in Heq.
  destruct (doseMatches value x) eqn:Hmx.
  - destruct (find_in_prefix (doseMatches value) pre (s :: post) x Hx Hmx)
      as (y & Hy & Hyin).
    rewrite Hy in Heq. subst y. contradiction.
  - assert (Hms : doseMatches value s = false).
    { unfold doseMatches in *. rewrite Hxn in Hmx. now rewrite Hsn. }
    destruct (find (doseMatches value) (pre ++ s :: post)) as [y|] eqn:Hfind.
    + apply find_some in Hfind as [_ Hmy]. subst y. congruence.
    + subst s. discriminate.
Qed.

Lemma trimStart_blank (value : jsstring) :
  forallb isWhiteSpace value = true -> trimStart value = [].
Proof. apply dropWhile_all. Qed.

(** A value of white space only (the empty value too) passes the numeric
    test, as [Number] reads it as 0, but [parseInt] reads no number from
    it: the selected dose becomes the empty default. *)
Theorem blank_value_selects_default (formState state : ImmunizationFormState)
    (value : jsstring) :
  forallb isWhiteSpace value = true ->
  isNumber value = true
  /\ parseInt value = NaN
  /\ currentDose (onDoseSelect formState value state) = defaultDose.
Proof.
  intros Hblank.
  assert (Hparse : parseInt value = NaN).
  { unfold parseInt. now rewrite (trimStart_blank value Hblank). }
  split; [| split; [exact Hparse |]].
  - unfold isNumber, isNaN, isNumericString, trim.
    now rewrite (trimStart_blank value Hblank).
  - rewrite onDoseSelect_currentDose, find_absent; [reflexivity |].
    intros y _. apply doseMatches_false. right. now left.
Qed.

Lemma takeWhile_stop (p : N -> bool) (l : jsstring) (c : N) (r : jsstring) :
  forallb p l = true -> p c = false -> takeWhile p (l ++ c :: r) = l.
Proof.
  intros Hl Hc. induction l as [|a l IH]; simpl in *.
  - now rewrite Hc.
  - apply andb_true_iff in Hl as [-> Hl]. now rewrite IH.
Qed.

Lemma dropWhile_stop (p : N -> bool) (l : jsstring) (c : N) (r : jsstring) :
  forallb p l = true -> p c = false -> dropWhile p (l ++ c :: r) = c :: r.
Proof.
  intros Hl Hc. induction l as [|a l IH]; simpl in *.
  - now rewrite Hc.
  - apply andb_true_iff in Hl as [-> Hl]. now apply IH.
Qed.

Lemma toDouble_not_NaN (z : Z) : toDouble z <> NaN.
Proof.
  unfold toDouble. destruct (Z.abs z <? 2 ^ 53); [discriminate |].
  cbv zeta. match goal with |- (if ?b then _ else _) <> _ => destruct b end;
    discriminate.
Qed.

(** A decimal numeral with a fraction part: [Number] accepts it, and
    [parseInt] reads its integer part. *)
Lemma fraction_numeral (digits fraction : jsstring) :
  nonEmpty digits = true ->
  forallb isDigit digits = true ->
  forallb isDigit fraction = true ->
  isNumber (digits ++ 46%N :: fraction) = true
  /\ parseInt (digits ++ 46%N :: fraction) = toDouble (mathInt 10 digits).
Proof.
  intros Hne Hd Hf.
  destruct digits as [|c digits]; [discriminate |].
  pose proof Hd as Hd'. cbn [forallb] in Hd'.
  apply andb_true_iff in Hd' as [Hc Hrest].
  assert (Hdot : isDigit 46 = false) by reflexivity.
  split.
  - unfold isNumber, isNaN. rewrite negb_involutive. unfold isNumericString.
    rewrite trim_no_whiteSpace.
    + cbn [app]. rewrite (digit_not_sign c Hc).
      change (c :: digits ++ 46%N :: fraction)
        with ((c :: digits) ++ 46%N :: fraction).
      replace (isUnsignedDecimal ((c :: digits) ++ 46%N :: fraction))
        with true; [apply orb_true_r |].
      symmetry. unfold isUnsignedDecimal.
      rewrite (takeWhile_stop _ _ _ _ Hd Hdot), (dropWhile_stop _ _ _ _ Hd Hdot).
      rewrite (dropWhile_all _ _ Hf).
      replace (eqUnits ((c :: digits) ++ 46%N :: fraction) (str "Infinity"))
        with false; [reflexivity |].
      symmetry. cbn. apply andb_false_iff. left. apply N.eqb_neq.
      apply isDigit_range in Hc. lia.
    + rewrite forallb_app. apply andb_true_iff. split.
      * now apply forallb_digit_no_whiteSpace.
      * cbn [forallb]. apply andb_true_iff. split; [reflexivity |].
        now apply forallb_digit_no_whiteSpace.
  - assert (Hhex : match c :: (digits ++ 46%N :: fraction) with
                   | z :: x :: _ => ((z =? 48) && ((x =? 120) || (x =? 88)))%N
                   | _ => false
                   end = false).
    { destruct digits as [|x digits]; cbn [app].
      - apply andb_false_r.
      - cbn [forallb] in Hrest. apply andb_true_iff in Hrest as [Hx _].
        rewrite (digit_not_hex_mark x Hx). apply andb_false_r. }
    assert (Htake : takeWhile isDigit (c :: (digits ++ 46%N :: fraction))
                    = c :: digits)
      by apply (takeWhile_stop isDigit (c :: digits) 46%N fraction Hd Hdot).
    unfold parseInt. cbn [app].
    rewrite trimStart_head by now apply digit_not_whiteSpace.
    cbv zeta. rewrite (digit_not_sign c Hc).
    replace (c =? 45)%N with false
      by (symmetry; apply N.eqb_neq; apply isDigit_range in Hc; lia).
    rewrite Hhex, Htake. reflexivity.
Qed.

(** A value with a decimal fraction is taken for a number and selects the
    sequence numbered by its integer part. *)
Theorem fractional_value_selects_integer_part
    (formState state : ImmunizationFormState) (digits fraction : jsstring)
    (pre : list ImmunizationSequence) (s : ImmunizationSequence)
    (post : list ImmunizationSequence) :
  nonEmpty digits = true ->
  forallb isDigit digits = true ->
  forallb isDigit fraction = true ->
  sequences formState = pre ++ s :: post ->
  sequenceNumber s = Val (toDouble (mathInt 10 digits)) ->
  (forall x, In x pre ->
             sequenceNumber x <> Val (toDouble (mathInt 10 digits))) ->
  currentDose (onDoseSelect formState (digits ++ 46%N :: fraction) state) = s.
Proof.
  intros Hne Hd Hf Hseq Hs Hpre.
  destruct (fraction_numeral digits fraction Hne Hd Hf) as [Hnum Hparse].
  apply (onDoseSelect_first formState state _ _ pre s post Hnum Hparse);
    try assumption.
  apply toDouble_not_NaN.
Qed.

(** ** More on the render conditions *)

(** The two places that decide on the submit button agree: it has the
    filled style exactly when it is not disabled, and the button bar has its
    border in exactly those states. *)
Theorem submit_style_follows_enabled (formState : ImmunizationFormState) :
  (submitClassName formState = "omrs-btn omrs-filled-action omrs-rounded"%string
   <-> submitDisabled formState = false)
  /\ (submitClassName formState = "omrs-btn omrs-outlined omrs-rounded"%string
      <-> submitDisabled formState = true)
  /\ buttonBarBordered formState = negb (submitDisabled formState).
Proof.
  unfold submitClassName, buttonBarBordered, submitDisabled,
    enableCreateButtons, enableEditButtons.
  destruct (isViewEditMode formState), (formChanged formState),
    (truthy (vaccinationDate formState)); simpl;
    repeat split; intros; try reflexivity; discriminate.
Qed.

(** The dropdown is rendered after mount exactly when the parameters carry
    a non-empty sequence list, and it then shows the number of the
    parameters' dose. *)
Theorem mounted_dropdown (params : ImmunizationFormData)
    (state : ImmunizationFormState) :
  let state' := mountEffect (Val params) state in
  showSequenceSelect state' = hasSequences (FormData.sequences params)
  /\ (forall dose, FormData.currentDose params = Val dose ->
                   selectValue state' = sequenceNumber dose)
  /\ (FormData.currentDose params = Null
      \/ FormData.currentDose params = Undefined ->
      selectValue state' = Undefined).
Proof.
  intros state'. subst state'. rewrite mountEffect_params.
  unfold showSequenceSelect, selectValue.
  rewrite formStateFromParam_sequences. simpl.
  split; [| split].
  - destruct (FormData.sequences params) as [| |[|x l]]; reflexivity.
  - intros dose ->. reflexivity.
  - intros [->| ->]; reflexivity.
Qed.

(** ** The component and its surroundings *)

Section Properties.

Variable FHIRResource : Type.
Variable mapToFHIRImmunizationResource :
  ImmunizationFormData -> maybe string -> maybe string -> maybe string
  -> FHIRResource.
Variable Reason : Type.

Lemma submitForm_world (env : Env) (w : World FHIRResource Reason) :
  snd (submitForm mapToFHIRImmunizationResource env w)
  = {| formState := formState w;
       trace := trace w ++ [PreventDefault;
                            saveEvent mapToFHIRImmunizationResource env (formState w) (controllers w)];
       controllers := S (controllers w);
       aborted := aborted w;
       pending := pending w ++ [controllers w] |}.
Proof.
  unfold submitForm, handleFormSubmit, bind, emit, newAbortController,
    savePatientImmunization, ret, saveEvent; simpl.
  now rewrite <- app_assoc.
Qed.

Lemma handleFormSubmit_world (env : Env) (formState0 : ImmunizationFormState)
    (w : World FHIRResource Reason) :
  snd (handleFormSubmit mapToFHIRImmunizationResource env formState0 w)
  = {| formState := formState w;
       trace := trace w ++ [PreventDefault;
                            saveEvent mapToFHIRImmunizationResource env formState0 (controllers w)];
       controllers := S (controllers w);
       aborted := aborted w;
       pending := pending w ++ [controllers w] |}
  /\ fst (handleFormSubmit mapToFHIRImmunizationResource env formState0 w)
     = abort (controllers w).
Proof.
  unfold handleFormSubmit, bind, emit, newAbortController,
    savePatientImmunization, ret, saveEvent; simpl.
  now rewrite <- app_assoc.
Qed.

Lemma pending_after_submit (c : nat) (l : list nat) :
  existsb (Nat.eqb c) (l ++ [c]) = true.
Proof.
  rewrite existsb_app; simpl. rewrite Nat.eqb_refl. now rewrite orb_true_r.
Qed.

Lemma settle_in_flight (env : Env) (c : nat) (o : outcome Reason) (w : World FHIRResource Reason) :
  existsb (Nat.eqb c) (pending w) = true ->
  trace (snd (settle env c o w))
  = trace w
    ++ match o with
       | Resolved response =>
           if status response =? 200
           then [HistoryPush (immunizationsPath env); CloseComponent]
           else []
       | Rejected reason => [CreateErrorHandler reason]
       end
  /\ formState (snd (settle env c o w)) = formState w
  /\ aborted (snd (settle env c o w)) = aborted w.
Proof.
  intros Hin. unfold settle. rewrite Hin.
  destruct o as [response|reason]; unfold bind, removePending, onFulfilled,
    onRejected, navigate, bind, emit, ret; simpl.
  - destruct (status response =? 200); simpl.
    + now rewrite <- app_assoc.
    + now rewrite app_nil_r.
  - auto.
Qed.

(** C1, as the code has it. After a submission, when the save request
    resolves with status 200 the component pushes
    [/patient/{patientUuid}/chart/immunizations] and calls [closeComponent];
    when it resolves with any other status nothing happens at all (no
    navigation, no close signal, no call of the error handler); when it is
    rejected there is no navigation and no close signal, and the reason is
    passed to [createErrorHandler]. The form state is untouched. *)
Theorem save_outcome (env : Env) (w : World FHIRResource Reason) (o : outcome Reason) :
  let w1 := snd (submitForm mapToFHIRImmunizationResource env w) in
  let w2 := snd (settle env (controllers w) o w1) in
  (forall response,
      o = Resolved response -> status response = 200 ->
      trace w2
      = trace w1
        ++ [HistoryPush ("/patient/" ++ toStr (patientUuid env)
                         ++ "/chart/immunizations")%string;
            CloseComponent])
  /\ (forall response,
         o = Resolved response -> status response <> 200 ->
         trace w2 = trace w1)
  /\ (forall reason,
         o = Rejected reason ->
         trace w2 = trace w1 ++ [CreateErrorHandler reason])
  /\ formState w2 = formState w.
Proof.
  intros w1 w2.
  assert (Hin : existsb (Nat.eqb (controllers w)) (pending w1) = true).
  { subst w1. rewrite submitForm_world; simpl. apply pending_after_submit. }
  destruct (settle_in_flight env (controllers w) o w1 Hin) as (Ht & Hs & _).
  fold w2 in Ht, Hs.
  split; [| split; [| split]].
  - intros response -> H200. rewrite Ht, H200. reflexivity.
  - intros response -> Hne. rewrite Ht.
    apply Z.eqb_neq in Hne. rewrite Hne. apply app_nil_r.
  - intros reason ->. exact Ht.
  - rewrite Hs. subst w1. now rewrite submitForm_world.
Qed.

(** C3. Cancel on an unchanged form emits [entryCancelled], the push of the
    immunization list and [closeComponent], with no prompt. On a changed
    form the prompt is shown: declined, nothing else happens; confirmed, the
    same three signals follow. The form state is the same afterwards in
    every case. *)
Theorem closeForm_flow (env : Env) (w : World FHIRResource Reason) :
  let message :=
    t env "close form confirm message"
      "There is ongoing work, are you sure you want to close this tab?" in
  let leave : list (event FHIRResource Reason) :=
    [EntryCancelled;
     HistoryPush ("/patient/" ++ toStr (patientUuid env)
                  ++ "/chart/immunizations")%string;
     CloseComponent] in
  let w' := snd (clickCancel env w) in
  formState w' = formState w
  /\ (formChanged (formState w) = false -> trace w' = trace w ++ leave)
  /\ (formChanged (formState w) = true -> confirm env message = false ->
      trace w' = trace w ++ [ConfirmPrompt message])
  /\ (formChanged (formState w) = true -> confirm env message = true ->
      trace w' = trace w ++ ConfirmPrompt message :: leave).
Proof.
  intros message leave w'. subst message leave w'.
  unfold clickCancel, closeForm, immunizationsPath.
  destruct (formChanged (formState w)) eqn:Hchanged;
    unfold bind, emit, ret; simpl.
  - destruct (confirm env _) eqn:Hconfirm; simpl.
    + repeat split; try discriminate. intros _ _.
      now rewrite <- !app_assoc.
    + repeat split; discriminate.
  - repeat split; try discriminate. intros _. now rewrite <- !app_assoc.
Qed.

Lemma inputOnChange_keeps_observation (rendered state : ImmunizationFormState)
    (c : inputChange) :
  immunizationObsUuid (inputOnChange rendered c state)
  = immunizationObsUuid state.
Proof. destruct c; reflexivity. Qed.

Lemma changeInput_formState (c : inputChange) (w : World FHIRResource Reason) :
  formState (snd (changeInput c w))
  = updateSingle FormChanged true (inputOnChange (formState w) c (formState w)).
Proof. reflexivity. Qed.

(** C4. The submit button is disabled, in create mode, exactly when the
    vaccination date is unset ([null], [undefined] or empty) and, in edit
    mode, exactly when [formChanged] is false. A change of the vaccination
    date input to a date enables it in create mode; any change of an input
    enables it in edit mode. *)
Theorem submit_enabled_iff_required (formState0 : ImmunizationFormState) :
  (isViewEditMode formState0 = false ->
   (submitDisabled formState0 = true
    <-> vaccinationDate formState0 = Null
        \/ vaccinationDate formState0 = Undefined
        \/ vaccinationDate formState0 = Val EmptyString))
  /\ (isViewEditMode formState0 = true ->
      (submitDisabled formState0 = true <-> formChanged formState0 = false))
  /\ (forall (w : World FHIRResource Reason) (date : string),
         formState w = formState0 ->
         isViewEditMode formState0 = false ->
         date <> EmptyString ->
         submitDisabled
           (formState (snd (changeInput (ChangeVaccinationDate date) w)))
         = false)
  /\ (forall (w : World FHIRResource Reason) (c : inputChange),
         formState w = formState0 ->
         isViewEditMode formState0 = true ->
         submitDisabled (formState (snd (changeInput c w))) = false).
Proof.
  split; [| split; [| split]].
  - intros Hmode. unfold submitDisabled, enableCreateButtons.
    rewrite Hmode; simpl. rewrite negb_true_iff. apply truthy_false_iff.
  - intros Hmode. unfold submitDisabled, enableEditButtons.
    rewrite Hmode; simpl. apply negb_true_iff.
  - intros w date Hw Hmode Hdate. rewrite changeInput_formState, Hw.
    unfold submitDisabled, enableCreateButtons, isViewEditMode in *; simpl.
    rewrite Hmode; simpl.
    destruct (String.eqb_spec date EmptyString) as [->|_];
      [now elim Hdate | reflexivity].
  - intros w c Hw Hmode. rewrite changeInput_formState, Hw.
    unfold submitDisabled, enableEditButtons, isViewEditMode in *; simpl.
    rewrite inputOnChange_keeps_observation, Hmode. reflexivity.
Qed.

(** C10. The object a submission assembles holds the patient identifier and
    the state's vaccine name and uuid, observation uuid, manufacturer,
    expiration and vaccination dates, lot number and current dose; it has no
    [sequences], and it is the same for any state with these eight fields
    (whatever its sequence list and [formChanged] flag). It is this object
    that is mapped and passed to the save call. *)
Theorem submitted_payload (env : Env) (formState0 : ImmunizationFormState) :
  let payload := immunization env formState0 in
  FormData.patientUuid payload = patientUuid env
  /\ FormData.immunizationObsUuid payload = immunizationObsUuid formState0
  /\ FormData.vaccineName payload = vaccineName formState0
  /\ FormData.vaccineUuid payload = vaccineUuid formState0
  /\ FormData.manufacturer payload = manufacturer formState0
  /\ FormData.expirationDate payload = expirationDate formState0
  /\ FormData.vaccinationDate payload = vaccinationDate formState0
  /\ FormData.lotNumber payload = lotNumber formState0
  /\ FormData.currentDose payload = Val (currentDose formState0)
  /\ FormData.sequences payload = Undefined
  /\ (forall other : ImmunizationFormState,
         immunizationObsUuid other = immunizationObsUuid formState0 ->
         vaccineName other = vaccineName formState0 ->
         vaccineUuid other = vaccineUuid formState0 ->
         manufacturer other = manufacturer formState0 ->
         expirationDate other = expirationDate formState0 ->
         vaccinationDate other = vaccinationDate formState0 ->
         lotNumber other = lotNumber formState0 ->
         currentDose other = currentDose formState0 ->
         immunization env other = payload)
  /\ (forall w : World FHIRResource Reason,
         formState w = formState0 ->
         trace (snd (submitForm mapToFHIRImmunizationResource env w))
         = trace w
           ++ [PreventDefault;
               SavePatientImmunization
                 (mapToFHIRImmunizationResource payload
                    (currentVisitUuid env) (currentLocationUuid env)
                    (currentProviderUuid env))
                 (patientUuid env) (immunizationObsUuid formState0)
                 (controllers w)]).
Proof.
  intros payload. subst payload.
  repeat (split; [reflexivity |]).
  split.
  - intros other H1 H2 H3 H4 H5 H6 H7 H8. unfold immunization.
    now rewrite H1, H2, H3, H4, H5, H6, H7, H8.
  - intros w Hw. rewrite submitForm_world; simpl. unfold saveEvent.
    now rewrite Hw.
Qed.

Lemma unmount_world (w : World FHIRResource Reason) : unmount w = (tt, w).
Proof. reflexivity. Qed.

Lemma abort_world (c : nat) (w : World FHIRResource Reason) :
  aborted (snd (abort c w)) = c :: aborted w
  /\ trace (snd (abort c w)) = trace w ++ [Abort c].
Proof. split; reflexivity. Qed.

(** What [handleFormSubmit] returns does abort the request it started. *)
Lemma handleFormSubmit_returns_abort (env : Env)
    (rendered : ImmunizationFormState) (w : World FHIRResource Reason) :
  let r := handleFormSubmit mapToFHIRImmunizationResource env rendered w in
  In (controllers w) (pending (snd r))
  /\ aborted (snd (fst r (snd r))) = controllers w :: aborted w.
Proof.
  intros r. subst r.
  destruct (handleFormSubmit_world env rendered w) as [Hw Hc].
  rewrite Hc, Hw. split; [| reflexivity].
  simpl. apply in_or_app. right. now left.
Qed.

(** C8, on the code. A submit event followed by the tear-down of the
    component leaves the save request in flight and its controller not
    aborted: no [Abort] is emitted. The function [handleFormSubmit] returns
    is dropped by the dispatch of the submit event and no effect of the
    component registers a cleanup. A second submit event starts a second
    request next to the first. *)
Theorem submit_then_unmount_leaves_request (env : Env)
    (w : World FHIRResource Reason) :
  let w1 := snd (submitForm mapToFHIRImmunizationResource env w) in
  let w2 := snd (unmount w1) in
  pending w2 = pending w ++ [controllers w]
  /\ aborted w2 = aborted w
  /\ trace w2
     = trace w ++ [PreventDefault;
                   saveEvent mapToFHIRImmunizationResource env (formState w)
                             (controllers w)]
  /\ pending (snd (submitForm mapToFHIRImmunizationResource env w1))
     = pending w ++ [controllers w; S (controllers w)].
Proof.
  intros w1 w2. subst w2 w1. rewrite unmount_world. cbn [snd].
  rewrite !submitForm_world. cbn [pending aborted trace controllers].
  repeat split. now rewrite <- app_assoc.
Qed.

(** No event of the component aborts a request: each leaves the aborted
    controllers as they were and adds no [Abort] to the trace. *)
Lemma step_never_aborts (env : Env) (e : componentEvent Reason)
    (w : World FHIRResource Reason) :
  let w' := snd (step mapToFHIRImmunizationResource env e w) in
  aborted w' = aborted w
  /\ filter isAbort (trace w') = filter isAbort (trace w).
Proof.
  destruct e as [params|c| | |c o|]; cbn [step].
  - split; reflexivity.
  - unfold changeInput, formOnChange, bind, setFormState, emit; simpl.
    split; [reflexivity |].
    rewrite filter_app; simpl. apply app_nil_r.
  - unfold clickCancel, closeForm.
    destruct (formChanged (formState w)); [destruct (confirm env _) |];
      unfold bind, emit, ret; simpl; (split; [reflexivity |]);
      rewrite ?filter_app; simpl; now rewrite ?app_nil_r.
  - cbn zeta. rewrite submitForm_world; simpl. split; [reflexivity |].
    rewrite filter_app; simpl. apply app_nil_r.
  - cbn zeta. destruct (existsb (Nat.eqb c) (pending w)) eqn:Hin.
    + destruct (settle_in_flight env c o w Hin) as (Ht & _ & Ha).
      split; [exact Ha |]. rewrite Ht, filter_app.
      destruct o as [response|reason];
        [destruct (status response =? 200) |]; simpl; apply app_nil_r.
    + unfold settle. rewrite Hin. split; reflexivity.
  - split; reflexivity.
Qed.

(** Whatever happens to the component, in whatever order, no save request
    is ever aborted. *)
Theorem component_never_aborts (env : Env) (es : list (componentEvent Reason))
    (w : World FHIRResource Reason) :
  let w' := runEvents mapToFHIRImmunizationResource env es w in
  aborted w' = aborted w
  /\ filter isAbort (trace w') = filter isAbort (trace w).
Proof.
  revert w. induction es as [|e es IH]; intros w; cbn [runEvents].
  - split; reflexivity.
  - destruct (IH (snd (step mapToFHIRImmunizationResource env e w)))
      as [Ha Ht].
    destruct (step_never_aborts env e w) as [Ha' Ht'].
    cbn zeta in *. split; congruence.
Qed.

End Properties.

(** * Sessions: sequences of events *)

Section Sessions.

Variable FHIRResource : Type.
Variable mapToFHIRImmunizationResource :
  ImmunizationFormData -> maybe string -> maybe string -> maybe string
  -> FHIRResource.
Variable Reason : Type.

Lemma runEvents_app (env : Env) (es1 es2 : list (componentEvent Reason))
    (w : World FHIRResource Reason) :
  runEvents mapToFHIRImmunizationResource env (es1 ++ es2) w
  = runEvents mapToFHIRImmunizationResource env es2
      (runEvents mapToFHIRImmunizationResource env es1 w).
Proof.
  revert w. induction es1 as [|e es1 IH]; intros w; cbn [runEvents app].
  - reflexivity.
  - apply IH.
Qed.

Lemma closeForm_world (env : Env) (rendered : ImmunizationFormState)
    (w : World FHIRResource Reason) :
  let message :=
    t env "close form confirm message"
      "There is ongoing work, are you sure you want to close this tab?" in
  let leave : list (event FHIRResource Reason) :=
    [EntryCancelled; HistoryPush (immunizationsPath env); CloseComponent] in
  snd (closeForm env rendered w)
  = {| formState := formState w;
       trace := trace w
                ++ (if formChanged rendered
                    then ConfirmPrompt message
                         :: (if confirm env message then leave else [])
                    else leave);
       controllers := controllers w;
       aborted := aborted w;
       pending := pending w |}.
Proof.
  unfold closeForm.
  destruct (formChanged rendered); unfold bind, emit, ret; simpl.
  - destruct (confirm env _); simpl.
    + now rewrite <- !app_assoc.
    + reflexivity.
  - now rewrite <- !app_assoc.
Qed.

Lemma settle_world (env : Env) (c : nat) (o : outcome Reason)
    (w : World FHIRResource Reason) :
  snd (settle env c o w)
  = if existsb (Nat.eqb c) (pending w)
    then {| formState := formState w;
            trace := trace w
                     ++ match o with
                        | Resolved response =>
                            if status response =? 200
                            then [HistoryPush (immunizationsPath env);
                                  CloseComponent]
                            else []
                        | Rejected reason => [CreateErrorHandler reason]
                        end;
            controllers := controllers w;
            aborted := aborted w;
            pending := filter (fun x => negb (Nat.eqb x c)) (pending w) |}
    else w.
Proof.
  unfold settle. destruct (existsb (Nat.eqb c) (pending w)); [| reflexivity].
  destruct o as [response|reason]; unfold bind, removePending, onFulfilled,
    onRejected, navigate, bind, emit, ret; simpl.
  - destruct (status response =? 200); simpl.
    + now rewrite <- app_assoc.
    + now rewrite app_nil_r.
  - reflexivity.
Qed.

(** Only the mount effect and the inputs write the form state. *)
Lemma step_formState (env : Env) (e : componentEvent Reason)
    (w : World FHIRResource Reason) :
  formState (snd (step mapToFHIRImmunizationResource env e w))
  = match e with
    | DoMount params => mountEffect params (formState w)
    | DoChange c =>
        updateSingle FormChanged true
          (inputOnChange (formState w) c (formState w))
    | _ => formState w
    end.
Proof.
  destruct e as [params|c| | |c o|]; cbn [step].
  - reflexivity.
  - reflexivity.
  - unfold clickCancel. now rewrite closeForm_world.
  - now rewrite submitForm_world.
  - rewrite settle_world. now destruct (existsb (Nat.eqb c) (pending w)).
  - reflexivity.
Qed.

Lemma step_keeps_identity (env : Env) (e : componentEvent Reason)
    (w : World FHIRResource Reason) :
  isMountEvent e = false ->
  let state' := formState (snd (step mapToFHIRImmunizationResource env e w)) in
  immunizationObsUuid state' = immunizationObsUuid (formState w)
  /\ vaccineName state' = vaccineName (formState w)
  /\ vaccineUuid state' = vaccineUuid (formState w)
  /\ sequences state' = sequences (formState w).
Proof.
  intros He. cbv zeta. rewrite step_formState.
  destruct e as [params|c| | |c o|]; try discriminate He;
    try (repeat split; reflexivity).
  destruct c; repeat split.
Qed.

(** Between two runs of the mount effect nothing changes the record being
    edited or the list of sequences: the observation identifier, the
    vaccine name and uuid and the sequences stay, and with them the mode
    (create or edit) and whether the dropdown is shown. *)
Theorem identity_fixed_between_mounts (env : Env)
    (es : list (componentEvent Reason)) (w : World FHIRResource Reason) :
  forallb (fun e => negb (isMountEvent e)) es = true ->
  let state := formState w in
  let state' :=
    formState (runEvents mapToFHIRImmunizationResource env es w) in
  immunizationObsUuid state' = immunizationObsUuid state
  /\ vaccineName state' = vaccineName state
  /\ vaccineUuid state' = vaccineUuid state
  /\ sequences state' = sequences state
  /\ isViewEditMode state' = isViewEditMode state
  /\ showSequenceSelect state' = showSequenceSelect state.
Proof.
  intros Hes state state'.
  assert (H : immunizationObsUuid state' = immunizationObsUuid state
              /\ vaccineName state' = vaccineName state
              /\ vaccineUuid state' = vaccineUuid state
              /\ sequences state' = sequences state).
  { subst state state'. revert w.
    induction es as [|e es IH]; intros w; cbn [runEvents].
    - repeat split.
    - cbn [forallb] in Hes. apply andb_true_iff in Hes as [He Hes].
      apply negb_true_iff in He.
      destruct (IH Hes (snd (step mapToFHIRImmunizationResource env e w)))
        as (I1 & I2 & I3 & I4).
      destruct (step_keeps_identity env e w He) as (S1 & S2 & S3 & S4).
      cbv zeta in *. rewrite I1, I2, I3, I4. auto. }
  destruct H as (H1 & H2 & H3 & H4).
  unfold isViewEditMode, showSequenceSelect. rewrite H1, H4. auto 10.
Qed.

(** Once an input has changed, the form stays changed until the mount
    effect runs again: whatever follows, a cancel click prompts, and in
    edit mode the submit button stays enabled. *)
Theorem changed_until_next_mount (env : Env)
    (es1 : list (componentEvent Reason)) (c : inputChange)
    (es2 : list (componentEvent Reason)) (w : World FHIRResource Reason) :
  forallb (fun e => negb (isMountEvent e)) es2 = true ->
  let w' :=
    runEvents mapToFHIRImmunizationResource env (es1 ++ DoChange c :: es2) w in
  let message :=
    t env "close form confirm message"
      "There is ongoing work, are you sure you want to close this tab?" in
  formChanged (formState w') = true
  /\ (isViewEditMode (formState w') = true ->
      submitDisabled (formState w') = false)
  /\ exists rest,
       trace (snd (clickCancel env w'))
       = trace w' ++ ConfirmPrompt message :: rest.
Proof.
  intros Hes w' message.
  assert (Hchanged : formChanged (formState w') = true).
  { subst w'. rewrite runEvents_app. cbn [runEvents].
    set (w1 := snd (step mapToFHIRImmunizationResource env (DoChange c) _)).
    assert (H1 : formChanged (formState w1) = true).
    { subst w1. rewrite step_formState. reflexivity. }
    clearbody w1. revert w1 H1.
    induction es2 as [|e es2 IH]; intros w1 H1; cbn [runEvents].
    - exact H1.
    - cbn [forallb] in Hes. apply andb_true_iff in Hes as [He Hes].
      apply (IH Hes). rewrite step_formState.
      destruct e as [params|c'| | |c' o|]; try discriminate He;
        try exact H1; reflexivity. }
  split; [exact Hchanged | split].
  - intros Hmode. unfold submitDisabled, enableEditButtons.
    now rewrite Hmode, Hchanged.
  - unfold clickCancel. rewrite closeForm_world. cbv zeta. cbn [trace].
    rewrite Hchanged. eexists. reflexivity.
Qed.

Lemma inputOnChange_doseListed (state : ImmunizationFormState)
    (c : inputChange) :
  doseListed state ->
  doseListed (updateSingle FormChanged true (inputOnChange state c state)).
Proof.
  intros Hd. destruct c as [value|v|v|v|v]; try exact Hd.
  unfold doseListed. cbn [inputOnChange].
  change (sequences (updateSingle FormChanged true
                       (onDoseSelect state value state)))
    with (sequences state).
  change (currentDose (updateSingle FormChanged true
                         (onDoseSelect state value state)))
    with (currentDose (onDoseSelect state value state)).
  rewrite onDoseSelect_currentDose.
  destruct (find (doseMatches value) (sequences state)) as [s|] eqn:Hfind.
  - right. now apply find_some in Hfind.
  - now left.
Qed.

(** When the selected dose is the empty default or one of the available
    sequences, it remains so whatever the user does, until the mount effect
    runs again. *)
Theorem dose_stays_listed (env : Env) (es : list (componentEvent Reason))
    (w : World FHIRResource Reason) :
  forallb (fun e => negb (isMountEvent e)) es = true ->
  doseListed (formState w) ->
  doseListed (formState (runEvents mapToFHIRImmunizationResource env es w)).
Proof.
  revert w. induction es as [|e es IH]; intros w Hes Hd; cbn [runEvents].
  - exact Hd.
  - cbn [forallb] in Hes. apply andb_true_iff in Hes as [He Hes].
    apply (IH _ Hes). rewrite step_formState.
    destruct e as [params|c| | |c o|]; try discriminate He; try exact Hd.
    now apply inputOnChange_doseListed.
Qed.

Lemma step_requests (env : Env) (e : componentEvent Reason)
    (w : World FHIRResource Reason) :
  isSettleEvent e = false ->
  let w' := snd (step mapToFHIRImmunizationResource env e w) in
  controllers w'
  = (controllers w + (if isSubmitEvent e then 1 else 0))%nat
  /\ pending w'
     = pending w ++ (if isSubmitEvent e then [controllers w] else []).
Proof.
  intros He. destruct e as [params|c| | |c o|]; try discriminate He;
    cbn [step isSubmitEvent]; cbv zeta.
  - cbn. now rewrite Nat.add_0_r, app_nil_r.
  - cbn. now rewrite Nat.add_0_r, app_nil_r.
  - unfold clickCancel. rewrite closeForm_world. cbn [controllers pending].
    now rewrite Nat.add_0_r, app_nil_r.
  - rewrite submitForm_world. cbn [controllers pending].
    now rewrite Nat.add_1_r.
  - cbn. now rewrite Nat.add_0_r, app_nil_r.
Qed.

(** Every submit event starts a save request under a controller of its
    own: as long as no request settles, after [k] submit events (whatever
    else happens in between) [k] more requests are in flight, under the [k]
    controllers created since. *)
Theorem every_submit_starts_a_request (env : Env)
    (es : list (componentEvent Reason)) (w : World FHIRResource Reason) :
  forallb (fun e => negb (isSettleEvent e)) es = true ->
  let w' := runEvents mapToFHIRImmunizationResource env es w in
  let k := List.length (filter isSubmitEvent es) in
  controllers w' = (controllers w + k)%nat
  /\ pending w' = pending w ++ seq (controllers w) k.
Proof.
  revert w. induction es as [|e es IH]; intros w Hes; cbn [runEvents].
  - cbn. now rewrite Nat.add_0_r, app_nil_r.
  - cbn [forallb] in Hes. apply andb_true_iff in Hes as [He Hes].
    apply negb_true_iff in He.
    destruct (IH (snd (step mapToFHIRImmunizationResource env e w)) Hes)
      as [Ic Ip].
    destruct (step_requests env e w He) as [Sc Sp].
    cbv zeta in *. rewrite Ic, Ip, Sc, Sp. cbn [filter].
    destruct (isSubmitEvent e); cbn [List.length seq].
    + rewrite <- app_assoc. cbn [app].
      rewrite Nat.add_1_r. split; [lia | reflexivity].
    + rewrite Nat.add_0_r, app_nil_r. split; reflexivity.
Qed.

(** What an event adds to the trace. *)
Lemma step_trace (env : Env) (e : componentEvent Reason)
    (w : World FHIRResource Reason) :
  trace (snd (step mapToFHIRImmunizationResource env e w))
  = trace w
    ++ match e with
       | DoMount _ => []
       | DoChange _ => [EntryStarted]
       | DoCancel =>
           let message :=
             t env "close form confirm message"
               "There is ongoing work, are you sure you want to close this tab?" in
           let leave :=
             [EntryCancelled; HistoryPush (immunizationsPath env);
              CloseComponent] in
           if formChanged (formState w)
           then ConfirmPrompt message
                :: (if confirm env message then leave else [])
           else leave
       | DoSubmit =>
           [PreventDefault;
            saveEvent mapToFHIRImmunizationResource env (formState w)
                      (controllers w)]
       | DoSettle c o =>
           if existsb (Nat.eqb c) (pending w)
           then match o with
                | Resolved response =>
                    if status response =? 200
                    then [HistoryPush (immunizationsPath env); CloseComponent]
                    else []
                | Rejected reason => [CreateErrorHandler reason]
                end
           else []
       | DoUnmount => []
       end.
Proof.
  destruct e as [params|c| | |c o|]; cbn [step].
  - cbn. now rewrite app_nil_r.
  - reflexivity.
  - unfold clickCancel. now rewrite closeForm_world.
  - now rewrite submitForm_world.
  - rewrite settle_world.
    destruct (existsb (Nat.eqb c) (pending w));
      [reflexivity | now rewrite app_nil_r].
  - cbn. now rewrite app_nil_r.
Qed.

(** The form leaves (pushes on the history, calls [closeComponent]) only
    on a cancel click or when a save resolves with status 200: no other
    event, in any number or order, makes it navigate or close. *)
Theorem stays_until_cancel_or_saved (env : Env)
    (es : list (componentEvent Reason)) (w : World FHIRResource Reason) :
  forallb (fun e => negb (mayLeave e)) es = true ->
  filter isLeaving
    (trace (runEvents mapToFHIRImmunizationResource env es w))
  = filter isLeaving (trace w).
Proof.
  revert w. induction es as [|e es IH]; intros w Hes; cbn [runEvents].
  - reflexivity.
  - cbn [forallb] in Hes. apply andb_true_iff in Hes as [He Hes].
    apply negb_true_iff in He.
    rewrite (IH _ Hes), step_trace, filter_app.
    destruct e as [params|c| | |c o|]; try discriminate He;
      try (cbn; now rewrite app_nil_r).
    destruct (existsb (Nat.eqb c) (pending w)); [| cbn; now rewrite app_nil_r].
    destruct o as [response|reason]; cbn in He |- *.
    + rewrite He. cbn. now rewrite app_nil_r.
    + now rewrite app_nil_r.
Qed.

(** [entryStarted] is signalled on every change of an input, not only on
    the first: the trace gains one [EntryStarted] per change event and none
    otherwise. *)
Theorem entryStarted_on_every_change (env : Env)
    (es : list (componentEvent Reason)) (w : World FHIRResource Reason) :
  List.length
    (filter isEntryStarted
       (trace (runEvents mapToFHIRImmunizationResource env es w)))
  = (List.length (filter isEntryStarted (trace w))
     + List.length (filter isChangeEvent es))%nat.
Proof.
  revert w. induction es as [|e es IH]; intros w; cbn [runEvents].
  - cbn. now rewrite Nat.add_0_r.
  - rewrite IH, step_trace, filter_app, length_app. cbn [filter].
    destruct e as [params|c| | |c o|]; cbn [isChangeEvent List.length].
    + cbn. lia.
    + cbn. lia.
    + cbv zeta. destruct (formChanged (formState w));
        [destruct (confirm env _) |]; cbn; lia.
    + cbn. lia.
    + destruct (existsb (Nat.eqb c) (pending w)); [| cbn; lia].
      destruct o as [response|reason];
        [destruct (status response =? 200) |]; cbn; lia.
    + cbn. lia.
Qed.

(** Mounting a record and submitting it unchanged sends the record back:
    the save call carries the parameters' own values, with the current
    patient, without the sequence list. *)
Theorem unchanged_edit_sends_params_back (env : Env)
    (params : ImmunizationFormData) (dose : ImmunizationSequence)
    (w : World FHIRResource Reason) :
  FormData.currentDose params = Val dose ->
  trace (runEvents mapToFHIRImmunizationResource env
           [DoMount (Val params); DoSubmit] w)
  = trace w
    ++ [PreventDefault;
        SavePatientImmunization
          (mapToFHIRImmunizationResource
             {| FormData.patientUuid := patientUuid env;
                FormData.immunizationObsUuid :=
                  FormData.immunizationObsUuid params;
                FormData.vaccineName := FormData.vaccineName params;
                FormData.vaccineUuid := FormData.vaccineUuid params;
                FormData.manufacturer := FormData.manufacturer params;
                FormData.expirationDate := FormData.expirationDate params;
                FormData.vaccinationDate := FormData.vaccinationDate params;
                FormData.lotNumber := FormData.lotNumber params;
                FormData.sequences := Undefined;
                FormData.currentDose := Val dose |}
             (currentVisitUuid env) (currentLocationUuid env)
             (currentProviderUuid env))
          (patientUuid env) (FormData.immunizationObsUuid params)
          (controllers w)].
Proof.
  intros Hdose. cbn [runEvents]. rewrite !step_trace.
  cbn [step mount]. unfold saveEvent, immunization, setFormState; cbn.
  rewrite Hdose, app_nil_r. reflexivity.
Qed.

(** Clearing the vaccination date disables the submit button in create
    mode, but not in edit mode, where the change itself enables it. *)
Theorem cleared_date_disables_only_in_create_mode
    (w : World FHIRResource Reason) :
  submitDisabled
    (formState (snd (changeInput (ChangeVaccinationDate "") w)))
  = negb (isViewEditMode (formState w)).
Proof.
  rewrite changeInput_formState.
  unfold submitDisabled, enableCreateButtons, enableEditButtons,
    isViewEditMode; cbn.
  destruct (truthy (immunizationObsUuid (formState w))); reflexivity.
Qed.

End Sessions.

(** * The properties on the sample session *)

Example isNaN_samples :
  map (fun s => isNaN (str s))
      ["DEFAULT"; ""; "  "; "12"; " 12 "; "-7"; "+7"; "1.5"; ".5"; "5."; ".";
       "1e3"; "1e"; "12abc"; "0x1F"; "0x"; "-0x10"; "Infinity"; "-Infinity";
       "0b101"; "0o17"; "1_000"; "e5"]%string
  = [true; false; false; false; false; false; false; false; false; false; true;
     false; true; true; false; true; true; false; false;
     false; false; true; true].
Proof. reflexivity. Qed.

Example numberToString_samples :
  map numberToString [0; 7; 10; 42; -3; 1234567890; 9007199254740991]
  = map str ["0"; "7"; "10"; "42"; "-3"; "1234567890";
             "9007199254740991"]%string.
Proof. vm_compute. reflexivity. Qed.

Example parseInt_samples :
  map (fun s => parseInt (str s))
      ["DEFAULT"; ""; "12"; " 12 "; "-7"; "+7"; "1.5"; ".5"; "1e3"; "12abc";
       "0x1F"; "-0x10"; "Infinity"; "0b101"; "-0"; "007";
       "9007199254740993"; "9007199254740995"; "-9007199254740993"]%string
  = [NaN; NaN; Int 12; Int 12; Int (-7); Int 7; Int 1; NaN; Int 1; Int 12;
     Int 31; Int (-16); NaN; Int 0; Int 0; Int 7;
     Int 9007199254740992; Int 9007199254740996; Int (-9007199254740992)].
Proof. vm_compute. reflexivity. Qed.

Lemma updateSingle_frame_witness :
  getField LotNumber
    (updateSingle VaccinationDate (Val "2020-01-31"%string) initialState)
  = Val ""%string.
Proof.
  exact (proj2 (updateSingle_frame VaccinationDate (Val "2020-01-31"%string)
                  initialState) LotNumber ltac:(discriminate)).
Defined.

Lemma onDoseSelect_selects_witness :
  currentDose (onDoseSelect (formState mountedWorld) (str "2")
                            (formState mountedWorld))
  = dose2.
Proof.
  apply (proj1 (onDoseSelect_selects (formState mountedWorld)
                  (formState mountedWorld) (str "2"))
           (Int 2) [dose1] dose2 []).
  - reflexivity.
  - reflexivity.
  - discriminate.
  - reflexivity.
  - reflexivity.
  - intros x [<-|[]]. discriminate.
Defined.

Lemma option_value_selects_witness :
  currentDose (onDoseSelect (formState mountedWorld) (numberToString 2)
                            (formState changedWorld))
  = dose2.
Proof.
  apply (option_value_selects (formState mountedWorld) (formState changedWorld)
           2 [dose1] dose2 []).
  - reflexivity.
  - reflexivity.
  - reflexivity.
  - intros x [<-|[]]. discriminate.
Defined.

Lemma mount_reproduces_params_witness :
  sequences (mountEffect (Val sampleParams) initialState) = [dose1; dose2]
  /\ currentDose (mountEffect (Val sampleParams) initialState) = dose1
  /\ isViewEditMode (mountEffect (Val sampleParams) initialState) = true.
Proof.
  destruct (mount_reproduces_params sampleParams [dose1; dose2] dose1
              initialState eq_refl ltac:(discriminate) eq_refl)
    as (_ & _ & _ & _ & _ & _ & _ & Hseq & Hdose & Hmode).
  split; [exact Hseq | split; [exact Hdose |]].
  apply (Hmode "b9c21a82-aed3-11ea-b3de-0242ac130004"%string eq_refl).
  discriminate.
Defined.

Lemma mount_never_modified_witness :
  sequences (mountEffect (Val newRecordParams) initialState) = []
  /\ currentDose (mountEffect (Val newRecordParams) initialState) = defaultDose.
Proof.
  destruct (mount_never_modified newRecordParams initialState)
    as (_ & _ & Hseq & _ & Hdose & _).
  split.
  - apply Hseq. right. left. reflexivity.
  - apply Hdose. right. reflexivity.
Defined.

Lemma submit_enabled_iff_required_witness :
  submitDisabled (formState (newWorld : SampleWorld)) = true
  /\ submitDisabled
       (formState (snd (changeInput (ChangeVaccinationDate "2020-01-31")
                                    (newWorld : SampleWorld))))
     = false.
Proof.
  destruct (submit_enabled_iff_required SampleResource string initialState)
    as (Hcreate & _ & Hdate & _).
  split.
  - apply (Hcreate eq_refl). left. reflexivity.
  - apply (Hdate newWorld "2020-01-31"%string eq_refl eq_refl). discriminate.
Defined.

Lemma closeForm_flow_witness :
  trace (snd (clickCancel (sampleEnv false) changedWorld))
  = trace changedWorld
    ++ [ConfirmPrompt
          "There is ongoing work, are you sure you want to close this tab?"]
  /\ formState (snd (clickCancel (sampleEnv false) changedWorld))
     = formState changedWorld.
Proof.
  destruct (closeForm_flow SampleResource string (sampleEnv false) changedWorld)
    as (Hstate & _ & Hdeclined & _).
  split; [exact (Hdeclined eq_refl eq_refl) | exact Hstate].
Defined.

Lemma save_outcome_witness :
  trace (snd (settle (sampleEnv false) 0 (Resolved {| status := 200 |})
                (snd (submitForm keepArguments (sampleEnv false)
                                 mountedWorld))))
  = trace (snd (submitForm keepArguments (sampleEnv false) mountedWorld))
    ++ [HistoryPush
          "/patient/8673ee4f-e2ab-4077-ba55-4980f408773e/chart/immunizations";
        CloseComponent].
Proof.
  exact (proj1 (save_outcome SampleResource keepArguments string
                  (sampleEnv false) mountedWorld
                  (Resolved {| status := 200 |}))
           {| status := 200 |} eq_refl eq_refl).
Defined.

(** C1, as stated, fails: after a submission, a save that resolves with
    status 201 leaves the trace as it was, so nothing reaches the error
    handler (and the request is no longer in flight). *)
Lemma save_resolved_201_not_forwarded :
  let w1 := snd (submitForm keepArguments (sampleEnv false) mountedWorld) in
  let w2 := snd (settle (sampleEnv false) 0 (Resolved {| status := 201 |}) w1) in
  pending w1 = [0%nat]
  /\ pending w2 = []
  /\ trace w2 = trace w1
  /\ forall reason : string, ~ In (CreateErrorHandler reason) (trace w2).
Proof.
  repeat split.
  intros reason [H|[H|[]]]; discriminate.
Qed.

Lemma submitted_payload_witness :
  immunization (sampleEnv false)
    (updateSingle Sequences []
       (updateSingle FormChanged true (formState mountedWorld)))
  = immunization (sampleEnv false) (formState mountedWorld).
Proof.
  destruct (submitted_payload SampleResource keepArguments string
              (sampleEnv false) (formState mountedWorld))
    as (_ & _ & _ & _ & _ & _ & _ & _ & _ & _ & Hsame & _).
  apply Hsame; reflexivity.
Defined.

Lemma shadowed_sequence_never_selected_witness :
  currentDose (onDoseSelect repeatedState (str "1") repeatedState)
  <> repeatedDose
  /\ currentDose (onDoseSelect repeatedState (str "1") repeatedState) = dose1.
Proof.
  split; [| reflexivity].
  apply (shadowed_sequence_never_selected repeatedState repeatedState (str "1")
           [dose1] repeatedDose [] dose1 (Int 1)).
  - reflexivity.
  - left. reflexivity.
  - reflexivity.
  - reflexivity.
  - intros [H|[]]. discriminate.
Defined.

Lemma blank_value_selects_default_witness :
  isNumber (str "  ") = true
  /\ parseInt (str "  ") = NaN
  /\ currentDose (onDoseSelect (formState mountedWorld) (str "  ")
                                (formState mountedWorld))
     = defaultDose.
Proof.
  exact (blank_value_selects_default (formState mountedWorld)
           (formState mountedWorld) (str "  ") eq_refl).
Defined.

Lemma fractional_value_selects_integer_part_witness :
  currentDose (onDoseSelect (formState mountedWorld) (str "1.5")
                            (formState mountedWorld))
  = dose1.
Proof.
  apply (fractional_value_selects_integer_part (formState mountedWorld)
           (formState mountedWorld) [49%N] [53%N] [] dose1 [dose2]).
  - reflexivity.
  - reflexivity.
  - reflexivity.
  - reflexivity.
  - reflexivity.
  - intros x [].
Defined.

Lemma identity_fixed_between_mounts_witness :
  isViewEditMode
    (formState (runEvents keepArguments (sampleEnv false) sampleSession
                          mountedWorld))
  = true
  /\ sequences
       (formState (runEvents keepArguments (sampleEnv false) sampleSession
                             mountedWorld))
     = [dose1; dose2].
Proof.
  destruct (identity_fixed_between_mounts SampleResource keepArguments string
              (sampleEnv false) sampleSession mountedWorld eq_refl)
    as (_ & _ & _ & Hseq & Hmode & _).
  split; [exact Hmode | exact Hseq].
Defined.

Lemma changed_until_next_mount_witness :
  formChanged
    (formState (runEvents keepArguments (sampleEnv false)
                  ([] ++ DoChange (ChangeLotNumber "PT123G")
                      :: [DoSubmit; DoUnmount])
                  mountedWorld))
  = true.
Proof.
  exact (proj1 (changed_until_next_mount SampleResource keepArguments string
                  (sampleEnv false) [] (ChangeLotNumber "PT123G")
                  [DoSubmit; DoUnmount] mountedWorld eq_refl)).
Defined.

Lemma dose_stays_listed_witness :
  doseListed
    (formState (runEvents keepArguments (sampleEnv false) sampleSession
                          mountedWorld)).
Proof.
  apply (dose_stays_listed SampleResource keepArguments string
           (sampleEnv false) sampleSession mountedWorld).
  - reflexivity.
  - right. left. reflexivity.
Defined.

Lemma every_submit_starts_a_request_witness :
  controllers (runEvents keepArguments (sampleEnv false) sampleSession
                         mountedWorld)
  = 2%nat
  /\ pending (runEvents keepArguments (sampleEnv false) sampleSession
                        mountedWorld)
     = [0%nat; 1%nat].
Proof.
  exact (every_submit_starts_a_request SampleResource keepArguments string
           (sampleEnv false) sampleSession mountedWorld eq_refl).
Defined.

Lemma stays_until_cancel_or_saved_witness :
  filter isLeaving
    (trace (runEvents keepArguments (sampleEnv false)
              (sampleSession ++ [DoSettle 0 (Rejected "offline"%string);
                                 DoSettle 1 (Resolved {| status := 201 |})])
              mountedWorld))
  = [].
Proof.
  exact (stays_until_cancel_or_saved SampleResource keepArguments string
           (sampleEnv false)
           (sampleSession ++ [DoSettle 0 (Rejected "offline"%string);
                              DoSettle 1 (Resolved {| status := 201 |})])
           mountedWorld eq_refl).
Defined.

Lemma unchanged_edit_sends_params_back_witness :
  exists resource : SampleResource,
    trace (runEvents keepArguments (sampleEnv false)
             [DoMount (Val sampleParams); DoSubmit]
             (newWorld : SampleWorld))
    = [PreventDefault;
       SavePatientImmunization resource
         (Val "8673ee4f-e2ab-4077-ba55-4980f408773e"%string)
         (Val "b9c21a82-aed3-11ea-b3de-0242ac130004"%string) 0%nat]
    /\ FormData.lotNumber (fst resource) = Val "PT123F"%string
    /\ FormData.currentDose (fst resource) = Val dose1.
Proof.
  eexists. split.
  - exact (unchanged_edit_sends_params_back SampleResource keepArguments
             string (sampleEnv false) sampleParams dose1 newWorld eq_refl).
  - split; reflexivity.
Defined.
